(** * code_scribe: the prompt pipeline of [code_scribe/lib/_llm.py]

    A shallow embedding of [prompt_translate] and [prompt_inspect] and of
    the Python primitives they call, with the properties of the prompt
    construction, the comment filter, the tagged extraction and the
    per-unit skip and restore logic.

    Text is a [string] whose characters stand for the code points
    U+0000 to U+00FF. *)

From stdpp Require Import base strings list gmap.
From Stdlib Require Import Ascii String Lia.

(** ** Python string primitives *)

Module Py.

Definition LF : ascii := "010"%char.
Definition CR : ascii := "013"%char.

(** The one-character string holding a line feed. *)
Definition nl : string := String LF "".

(** [str.isspace] on one character: U+0009..U+000D, U+001C..U+001F,
    U+0020, U+0085 and U+00A0. *)
Definition isspace (c : ascii) : bool :=
  let n := nat_of_ascii c in
  (((9 <=? n) && (n <=? 13)) || ((28 <=? n) && (n <=? 32))
   || (n =? 133) || (n =? 160))%nat.

(** [str.lower] on one character: A..Z, and the upper-case letters
    U+00C0..U+00DE apart from the multiplication sign U+00D7. *)
Definition lower_char (c : ascii) : ascii :=
  let n := nat_of_ascii c in
  if (((65 <=? n) && (n <=? 90))
      || ((192 <=? n) && (n <=? 222) && negb (n =? 215)))%nat
  then ascii_of_nat (n + 32) else c.

Fixpoint lower (s : string) : string :=
  match s with
  | "" => ""
  | String c s' => String (lower_char c) (lower s')
  end.

Fixpoint lstrip (s : string) : string :=
  match s with
  | "" => ""
  | String c s' => if isspace c then lstrip s' else s
  end.

Definition rstrip (s : string) : string :=
  String.rev (lstrip (String.rev s)).

(** [str.strip()] with no argument. *)
Definition strip (s : string) : string := rstrip (lstrip s).

(** [s.startswith(p)]. *)
Fixpoint startswith (s p : string) {struct p} : bool :=
  match p with
  | "" => true
  | String a p' =>
      match s with
      | "" => false
      | String b s' => if decide (a = b) then startswith s' p' else false
      end
  end.

(** [s.startswith(ps)] for a tuple [ps] of prefixes. *)
Definition startswith_any (s : string) (ps : list string) : bool :=
  existsb (startswith s) ps.

(** [s[n:]]. *)
Fixpoint drop (n : nat) (s : string) : string :=
  match n, s with
  | O, _ => s
  | S _, "" => ""
  | S n', String _ s' => drop n' s'
  end.

(** [sep.join(l)] at the empty separator. *)
Definition join (l : list string) : string := String.concat "" l.

(** Universal newlines, as a text stream opened for reading applies them:
    a carriage return followed by a line feed, and a lone carriage
    return, both read as one line feed. *)
Fixpoint universal_newlines (s : string) : string :=
  match s with
  | "" => ""
  | String c s' =>
      if decide (c = CR) then
        if startswith s' nl then universal_newlines s'
        else String LF (universal_newlines s')
      else String c (universal_newlines s')
  end.

(** [readlines()] on decoded text: the lines in order, each with its
    line feed; the last one has none when the text does not end in one. *)
Fixpoint readlines (s : string) : list string :=
  match s with
  | "" => []
  | String c s' =>
      if decide (c = LF) then nl :: readlines s'
      else match readlines s' with
           | [] => [String c ""]
           | l :: ls => String c l :: ls
           end
  end.

End Py.

(** ** The comment filter of [prompt_translate] (lines 136 to 148) *)

(** The condition under which the loop sets [is_comment] to [True]. *)
Definition is_comment (line : string) : bool :=
  Py.startswith_any (Py.lower (Py.strip line)) ["c"; "!!"; "!"]
  && negb (Py.startswith (Py.lower (Py.strip line)) "complex").

(** The loop over [sfile.readlines()]: [source_code] starts empty and
    gets every line that is not a comment appended. *)
Definition source_code (lines : list string) : list string :=
  fold_left
    (fun acc line => if is_comment line then acc else acc ++ [line])
    lines [].

(** ** [re.search(r"<tag>(.*?)</tag>", text, re.DOTALL)] *)

Module Re.

(** The lazy [(.*?)] followed by the literal [close]: the group grows one
    character at a time (any character, under [re.DOTALL]) until [close]
    matches; [None] when the text runs out first. *)
Fixpoint lazy_until (close s : string) : option string :=
  if Py.startswith s close then Some ""
  else match s with
       | "" => None
       | String c s' => String c <$> lazy_until close s'
       end.

(** One attempt of the pattern at the head of [s]. *)
Definition match_at (opening close s : string) : option string :=
  if Py.startswith s opening
  then lazy_until close (Py.drop (String.length opening) s)
  else None.

(** [re.search]: the attempts run over the start positions from the
    left; the result is [group(1)] of the first success. *)
Fixpoint search (opening close s : string) : option string :=
  match match_at opening close s with
  | Some g => Some g
  | None =>
      match s with
      | "" => None
      | String _ s' => search opening close s'
      end
  end.

Definition open_tag (tag : string) : string := "<" +:+ tag +:+ ">".
Definition close_tag (tag : string) : string := "</" +:+ tag +:+ ">".

Definition search_tag (tag text : string) : option string :=
  search (open_tag tag) (close_tag tag) text.

End Re.

(** ** The file store, the conversation and the effects *)

(** What a path names: a regular file with its text, or a directory.
    The store maps the paths that exist to what they name; paths are told
    apart as strings, and a path that is absent can always be created. *)
Inductive node : Type :=
  | File (text : string)
  | Dir.

(** One [{role, content}] table of the conversation. *)
Record message : Type := Message { role : string; content : string }.

Inductive backend : Type :=
  | TFModel (checkpoint_dir : string)
  | OpenAIModel.

Inductive exn : Type :=
  | ValueError (msg : string)
  | FileNotFoundError (path : string)
  | IsADirectoryError (path : string)
  | IndexError
  | TomlError
  | BackendError.

(** File and backend events, oldest first. *)
Inductive event : Type :=
  | OpenR (path : string)
  | OpenW (path : string)
  | Chat (conversation : list message).

Record state : Type := State {
  fs : gmap string node;
  chat_template : list message;
  calls : nat;
  events : list event;
  stdout : list string
}.

Inductive outcome (A : Type) : Type :=
  | Returned (a : A)
  | Raised (e : exn).
Arguments Returned {A} a.
Arguments Raised {A} e.

(** A computation: it runs on a state and returns or raises, and leaves
    the state it reached either way. *)
Definition M (A : Type) : Type := state → outcome A * state.

Definition ret {A} (a : A) : M A := fun st => (Returned a, st).
Definition raise {A} (e : exn) : M A := fun st => (Raised e, st).
Definition bind {A B} (m : M A) (k : A → M B) : M B :=
  fun st =>
    match m st with
    | (Returned a, st') => k a st'
    | (Raised e, st') => (Raised e, st')
    end.

#[export] Instance M_ret : MRet M := @ret.
#[export] Instance M_bind : MBind M := fun A B k m => bind m k.

(** [for x in l: body x]. *)
Fixpoint for_each {A} (l : list A) (body : A → M unit) : M unit :=
  match l with
  | [] => ret tt
  | x :: l' => body x;; for_each l' body
  end.

Definition get_state : M state := fun st => (Returned st, st).

Definition emit (e : event) : M unit :=
  fun st => (Returned tt,
             State (fs st) (chat_template st) (calls st)
                   (events st ++ [e]) (stdout st)).

Definition print (s : string) : M unit :=
  fun st => (Returned tt,
             State (fs st) (chat_template st) (calls st)
                   (events st) (stdout st ++ [s])).

Definition set_fs (f : gmap string node) : M unit :=
  fun st => (Returned tt,
             State f (chat_template st) (calls st) (events st) (stdout st)).

Definition set_template (t : list message) : M unit :=
  fun st => (Returned tt,
             State (fs st) t (calls st) (events st) (stdout st)).

(** What is at a path; nothing is at the empty path. *)
Definition stat (f : gmap string node) (p : string) : option node :=
  if decide (p = "") then None else f !! p.

(** [os.path.exists] and [os.path.isfile]. *)
Definition path_exists (f : gmap string node) (p : string) : bool :=
  match stat f p with Some _ => true | None => false end.

Definition isfile (f : gmap string node) (p : string) : bool :=
  match stat f p with Some (File _) => true | _ => false end.

(** [open(p, "r")] and the whole text read through the stream. *)
Definition open_r (p : string) : M string :=
  fun st =>
    match stat (fs st) p with
    | Some (File c) => (emit (OpenR p);; ret (Py.universal_newlines c)) st
    | Some Dir => (Raised (IsADirectoryError p), st)
    | None => (Raised (FileNotFoundError p), st)
    end.

(** [open(p, "r")] followed by [readlines()]. *)
Definition read_lines (p : string) : M (list string) :=
  text ← open_r p; ret (Py.readlines text).

(** [open(p, "w")]: the file is created, or truncated when it is there. *)
Definition open_w (p : string) : M unit :=
  fun st =>
    match stat (fs st) p with
    | Some Dir => (Raised (IsADirectoryError p), st)
    | _ =>
        if decide (p = "") then (Raised (FileNotFoundError p), st)
        else (emit (OpenW p);; set_fs (<[p := File ""]> (fs st))) st
    end.

(** Text written at offset 0 over what the file holds. *)
Definition overlay (text old : string) : string :=
  text +:+ Py.drop (String.length text) old.

Definition text_at (f : gmap string node) (p : string) : string :=
  match f !! p with Some (File c) => c | _ => "" end.

(** Closing a stream opened by [open_w]: the text it was given, held in
    its buffer until then, is flushed to the file from the start of the
    file. *)
Definition close_w (p : string) (text : string) : M unit :=
  fun st =>
    set_fs (<[p := File (overlay text (text_at (fs st) p))]> (fs st)) st.

(** [chat_template[-1]["content"]]. *)
Definition get_seed : M string :=
  fun st =>
    match last (chat_template st) with
    | Some m => (Returned (content m), st)
    | None => (Raised IndexError, st)
    end.

Fixpoint set_last_content (v : string) (t : list message) : list message :=
  match t with
  | [] => []
  | [m] => [Message (role m) v]
  | m :: t' => m :: set_last_content v t'
  end.

(** [chat_template[-1]["content"] = v]. *)
Definition set_seed (v : string) : M unit :=
  fun st =>
    match last (chat_template st) with
    | Some _ => set_template (set_last_content v (chat_template st)) st
    | None => (Raised IndexError, st)
    end.

(** [chat_template[-1]["content"] += v]. *)
Definition append_seed (v : string) : M unit :=
  old ← get_seed; set_seed (old +:+ v).

(** ** [prompt_translate] and [prompt_inspect] *)

(** The loop variables of [prompt_translate], one tuple of the [zip]. *)
Record item : Type := Item {
  fsource : string;
  csource : string;
  finterface : string;
  cdraft : string;
  promptfile : string
}.

(** [mapping[0]] to [mapping[4]]. *)
Record mapping : Type := Mapping {
  mapping0 : list string;
  mapping1 : list string;
  mapping2 : list string;
  mapping3 : list string;
  mapping4 : list string
}.

(** [zip] of five sequences: as long as the shortest. *)
Fixpoint zip5 (a b c d e : list string) : list item :=
  match a, b, c, d, e with
  | x :: a', y :: b', z :: c', v :: d', w :: e' =>
      Item x y z v w :: zip5 a' b' c' d' e'
  | _, _, _, _, _ => []
  end.

Definition items (m : mapping) : list item :=
  zip5 (mapping0 m) (mapping1 m) (mapping2 m) (mapping3 m) (mapping4 m).

(** The text appended for the source lines kept by the filter. *)
Definition source_block (kept : list string) : string :=
  Py.nl +:+ "<source>" +:+ Py.nl +:+ Py.join kept +:+ "</source>".

(** The text appended for the lines of the draft file. *)
Definition draft_block (draft_code : list string) : string :=
  Py.nl +:+ Py.nl +:+ "<draft>" +:+ Py.nl +:+ Py.join draft_code
  +:+ "</draft>".

(** What [cdest.write] is given: group 1 of the [csource] match, or the
    whole result when there is no match. *)
Definition cdest_text (result : string) : string :=
  match Re.search_tag "csource" result with
  | Some g => g
  | None => result
  end.

(** What [fdest.write] is given, when it is called at all. *)
Definition fdest_written (result : string) : option string :=
  Re.search_tag "fsource" result.

(** The text the stream [fdest] holds when it is closed. *)
Definition fdest_text (result : string) : string :=
  match fdest_written result with
  | Some g => g
  | None => ""
  end.

Definition start (f : gmap string node) : state := State f [] 0 [] [].

Section Pipeline.

(** The collaborators outside the repository: the [chat] key of the TOML
    document parsed by [toml.load] ([None] when it raises), the text
    [json.dump(..., indent=4)] produces, and the reply of a backend's
    [chat] to a conversation at its n-th call ([None] when it raises). *)
Variable toml_chat : string → option (list message).
Variable json_dump : list message → string.
Variable chat : backend → nat → list message → option string.

(** [neural_model.chat(chat_template)]. *)
Definition call_chat (b : backend) : M string :=
  fun st =>
    let st' := State (fs st) (chat_template st) (S (calls st))
                     (events st ++ [Chat (chat_template st)]) (stdout st) in
    match chat b (calls st) (chat_template st) with
    | Some r => (Returned r, st')
    | None => (Raised BackendError, st')
    end.

(** The choice of the backend, lines 104 to 116 and 206 to 218; the two
    copies differ in the line they print. A selector is false when it is
    [None] or empty. Building the backend object itself is taken to
    succeed. *)
Definition select_model (banner : string) (model : option string)
  : M (option backend) :=
  match model with
  | None => ret None
  | Some m =>
      if decide (m = "") then ret None
      else
        print banner;;
        st ← get_state;
        if path_exists (fs st) m then ret (Some (TFModel m))
        else if decide (Py.lower m = "openai") then ret (Some OpenAIModel)
        else raise (ValueError (m +:+ " not available"))
  end.

(** [toml.load(seed_prompt)["chat"]]. *)
Definition load_template (seed_prompt : string) : M (list message) :=
  text ← open_r seed_prompt;
  match toml_chat text with
  | Some t => ret t
  | None => raise TomlError
  end.

(** [with open(p, "w") as pdest: json.dump(chat_template, pdest, indent=4)]. *)
Definition dump_prompt (p : string) : M unit :=
  open_w p;;
  st ← get_state;
  close_w p (json_dump (chat_template st)).

(** Lines 176 to 194: the backend's reply split into the two files. *)
Definition generate (b : backend) (u : item) : M unit :=
  result ← call_chat b;
  open_w (csource u);;
  open_w (finterface u);;
  close_w (finterface u) (fdest_text result);;
  close_w (csource u) (cdest_text result).

(** Lines 135 to 153: the source file read, filtered and appended. *)
Definition inject_source (u : item) : M unit :=
  lines ← read_lines (fsource u);
  match source_code lines with
  | [] => ret tt
  | kept => append_seed (source_block kept)
  end.

(** Lines 155 to 165: the draft file, when there is one, appended whole. *)
Definition inject_draft (u : item) : M unit :=
  st ← get_state;
  if isfile (fs st) (cdraft u) then
    draft_code ← read_lines (cdraft u);
    match draft_code with
    | [] => ret tt
    | _ => append_seed (draft_block draft_code)
    end
  else ret tt.

(** Lines 133 to 196: a unit that is not skipped. *)
Definition process_item (neural_model : option backend)
    (save_prompts : bool) (u : item) : M unit :=
  cached_prompt ← get_seed;
  inject_source u;;
  inject_draft u;;
  (if save_prompts then
     dump_prompt (promptfile u);;
     print ("Generated prompt file for LLM consumption "
            +:+ promptfile u)
   else ret tt);;
  match neural_model with
  | Some b => generate b u
  | None => ret tt
  end;;
  set_seed cached_prompt.

(** The body of the loop, lines 129 to 199, with its guard at line 132;
    the calls on the progress bar are left out. *)
Definition translate_item (neural_model : option backend)
    (save_prompts : bool) (u : item) : M unit :=
  st ← get_state;
  if negb (isfile (fs st) (csource u)) || save_prompts
  then process_item neural_model save_prompts u
  else ret tt.

Definition prompt_translate (m : mapping) (seed_prompt : string)
    (model : option string) (save_prompts : bool) : M unit :=
  neural_model ← select_model "Starting neural conversion process" model;
  (if save_prompts then print "Saving custom prompts per file"
   else ret tt);;
  t ← load_template seed_prompt;
  set_template t;;
  for_each (items m) (translate_item neural_model save_prompts).

(** The fixed text at the head of the inspection prompt. *)
Definition preamble : string :=
  "I will give you source code from a set of files that" +:+ Py.nl
  +:+ "belong to a scientific computing codebase. I want you" +:+ Py.nl
  +:+ "to understand the source code and answer a query that" +:+ Py.nl
  +:+ "follows. Source code for each will be separated using" +:+ Py.nl
  +:+ "elements <filename> ... </filename>. Additional" +:+ Py.nl
  +:+ "information related to the project structure may also be" +:+ Py.nl
  +:+ "provided within <index> ... </index>. This information will"
  +:+ Py.nl
  +:+ "contain an index of subroutines, functions, and modules contained"
  +:+ Py.nl
  +:+ "in each file. Note that you will find subroutines and functions"
  +:+ Py.nl
  +:+ "repeat along nodes in the directory tree. This maybe due to a directory-based"
  +:+ Py.nl
  +:+ "inheritance design implemented by the project. If the index element is not"
  +:+ Py.nl
  +:+ "present, then you may ignore it. The query prompt will be provided at then end"
  +:+ Py.nl
  +:+ "using elements <query> ... </query>." +:+ Py.nl +:+ Py.nl.

(** The text appended for one file of [filelist]. *)
Definition file_block (path : string) (lines : list string) : string :=
  Py.nl +:+ "<" +:+ path +:+ ">" +:+ Py.nl +:+ Py.join lines
  +:+ "</" +:+ path +:+ ">" +:+ Py.nl.

Definition query_block (query_prompt : string) : string :=
  Py.nl +:+ "<query>" +:+ Py.nl +:+ query_prompt +:+ Py.nl
  +:+ "</query>" +:+ Py.nl.

(** The body of the loop over [filelist], lines 241 to 251. *)
Definition inspect_file (path : string) : M unit :=
  lines ← read_lines path;
  match lines with
  | [] => ret tt
  | _ => append_seed (file_block path lines)
  end.

(** Lines 223 to 253: the one user message of the inspection. *)
Definition inspect_prompt (filelist : list string) (query_prompt : string)
  : M unit :=
  set_template [Message "user" ""];;
  append_seed preamble;;
  for_each filelist inspect_file;;
  append_seed (query_block query_prompt).

Definition prompt_inspect (filelist : list string) (query_prompt : string)
    (model : option string) (save_prompts : bool) : M unit :=
  neural_model ← select_model "Performing neural inspection" model;
  (if save_prompts then print "Saving prompts to scribe.json"
   else ret tt);;
  inspect_prompt filelist query_prompt;;
  (if save_prompts then dump_prompt "scribe.json" else ret tt);;
  match neural_model with
  | Some b => result ← call_chat b; print result
  | None => ret tt
  end.

End Pipeline.

(** ** Occurrences of a pattern in a text *)

(** [p in s]. *)
Fixpoint contains (s p : string) : bool :=
  Py.startswith s p
  || match s with
     | "" => false
     | String _ s' => contains s' p
     end.

(** [pat] occurs in [s]. *)
Definition occurs (pat s : string) : Prop :=
  ∃ a b, s = a +:+ pat +:+ b.

(** [s] holds a span [opening ... close], with [pre] before it, [body]
    inside and [post] after it. *)
Definition span (opening close s pre body post : string) : Prop :=
  s = pre +:+ opening +:+ body +:+ close +:+ post.

(** The first span of [s]: no occurrence of [opening] starts left of
    this one, and no occurrence of [close] starts between the end of
    [opening] and the [close] of the span. *)
Definition first_span (opening close s pre body post : string) : Prop :=
  span opening close s pre body post
  ∧ (∀ a b, s = a +:+ opening +:+ b → String.length pre ≤ String.length a)
  ∧ (∀ a b, s = a +:+ close +:+ b →
       String.length pre + String.length opening ≤ String.length a →
       String.length pre + String.length opening + String.length body
       ≤ String.length a).

(** ** Statements in the words of the specification *)

(** A line is a comment: trimmed and lower-cased, it starts with one of
    the markers and does not start with the exception token. *)
Definition comment_marked (line : string) : Prop :=
  (∃ m r, m ∈ ["c"; "!!"; "!"] ∧ Py.lower (Py.strip line) = m +:+ r)
  ∧ ¬ ∃ r, Py.lower (Py.strip line) = "complex" +:+ r.

(** [open(p, "w")] succeeds on [p]. *)
Definition writable (f : gmap string node) (p : string) : Prop :=
  p ≠ "" ∧ f !! p ≠ Some Dir.

(** What the source file with text [src] adds to the seed: the block of
    the lines kept, or nothing when no line is kept. *)
Definition source_part (src : string) : string :=
  match source_code (Py.readlines (Py.universal_newlines src)) with
  | [] => ""
  | kept => source_block kept
  end.

(** What the draft path [p] adds to the seed in the store [f]. *)
Definition draft_part (f : gmap string node) (p : string) : string :=
  match stat f p with
  | Some (File d) =>
      match Py.readlines (Py.universal_newlines d) with
      | [] => ""
      | draft_code => draft_block draft_code
      end
  | _ => ""
  end.

(** The block the draft text [d], read through the stream, makes. *)
Definition draft_text_block (d : string) : string :=
  if decide (Py.universal_newlines d = "") then ""
  else Py.nl +:+ Py.nl +:+ "<draft>" +:+ Py.nl +:+ Py.universal_newlines d
       +:+ "</draft>".

(** The seed content of a conversation, when it has a last message. *)
Definition seed_content (t : list message) : option string :=
  content <$> last t.

(** The block of one inspected file with text [text]: nothing for a file
    whose text, read through the stream, is empty. *)
Definition file_text_block (path text : string) : string :=
  if decide (Py.universal_newlines text = "") then ""
  else Py.nl +:+ "<" +:+ path +:+ ">" +:+ Py.nl
       +:+ Py.universal_newlines text +:+ "</" +:+ path +:+ ">" +:+ Py.nl.

(** The blocks of the files of [files], in their order. *)
Definition inspect_blocks (f : gmap string node) (files : list string)
  : string :=
  fold_right
    (fun p acc =>
       match stat f p with
       | Some (File c) => file_text_block p c
       | _ => ""
       end +:+ acc)
    "" files.

(** ** What a step may change *)

(** The relation between the state a step starts from and the state it
    leaves, whether it returns or raises: the conversation differs at
    most in the content of its last message, what is a file stays a file,
    what exists stays, and the events are only added to. *)
Record step (st st' : state) : Prop := Step {
  step_template :
    ∃ v, chat_template st' = set_last_content v (chat_template st);
  step_isfile :
    ∀ p, isfile (fs st) p = true → isfile (fs st') p = true;
  step_exists :
    ∀ p, path_exists (fs st) p = true → path_exists (fs st') p = true;
  step_events : ∃ l, events st' = events st ++ l
}.

(** [m] relates every state it starts from to the state it leaves by
    [step]. *)
Definition preserves {A} (m : M A) : Prop :=
  ∀ st r st', m st = (r, st') → step st st'.

(** ** Further statements *)

(** A text of white space only. *)
Fixpoint blank (s : string) : bool :=
  match s with
  | "" => true
  | String c s' => Py.isspace c && blank s'
  end.

(** The paths a unit may write: its prompt file when prompts are saved,
    its primary and secondary files when there is a backend. *)
Definition outputs (backend_given save_prompts : bool) (u : item)
  : list string :=
  (if save_prompts then [promptfile u] else [])
  ++ (if backend_given then [csource u; finterface u] else []).

(** A selector that chooses a backend: not [None] and not empty. *)
Definition truthy (model : option string) : bool :=
  match model with
  | Some m => if decide (m = "") then false else true
  | None => false
  end.

(** Every path outside [W] names in [st'] what it names in [st]. *)
Definition untouched (W : string → Prop) (st st' : state) : Prop :=
  ∀ p, ¬ W p → fs st' !! p = fs st !! p.

(** [m] relates every state it starts from to the state it leaves by
    [R], whether it returns or raises. *)
Definition keeps (R : state → state → Prop) {A} (m : M A) : Prop :=
  ∀ st r st', m st = (r, st') → R st st'.

(** The conversation a unit builds from the template [t] whose last
    message is [m], on a source file of text [src]. *)
Definition built_prompt (f : gmap string node) (t : list message)
    (m : message) (u : item) (src : string) : list message :=
  set_last_content
    (content m +:+ source_part src +:+ draft_part f (cdraft u)) t.

(** The events of building it: the source opened, and the draft when it
    is there. *)
Definition build_events (f : gmap string node) (u : item) : list event :=
  OpenR (fsource u)
  :: (if isfile f (cdraft u) then [OpenR (cdraft u)] else []).

(** Between [st] and [st'] the backend was called at most [k] times. *)
Definition called (k : nat) (st st' : state) : Prop :=
  calls st ≤ calls st' ∧ calls st' ≤ calls st + k.

(** The backend a selector that is not empty chooses in the store [f],
    when it chooses one. *)
Definition selected (f : gmap string node) (m : string) : backend :=
  if path_exists f m then TFModel m else OpenAIModel.

(** The conversation of an inspection of [files] in the store [f]. *)
Definition inspect_conversation (f : gmap string node)
    (files : list string) (query_prompt : string) : list message :=
  [Message "user"
     (preamble +:+ inspect_blocks f files +:+ query_block query_prompt)].

(** ** Inputs of the examples *)

Definition example_lines : list string :=
  ["C note" +:+ Py.nl; "complex z" +:+ Py.nl; "! more" +:+ Py.nl;
   "code(1)" +:+ Py.nl].

Definition example_response : string :=
  "pre <csource>IMPL</csource> mid <fsource>IFACE</fsource> post".


(** A template parser, a serialiser and backends for the examples. *)
Definition example_template : list message :=
  [Message "system" "You translate Fortran to C++.";
   Message "user" "SEED"].

Definition example_toml (text : string) : option (list message) :=
  Some example_template.

Definition example_json (t : list message) : string :=
  Py.join (map content t).

Definition reply_with (result : string)
  : backend → nat → list message → option string :=
  fun _ _ _ => Some result.

Definition failing_backend
  : backend → nat → list message → option string :=
  fun _ _ _ => None.

Definition example_item : item :=
  Item "a.f" "a.cpp" "a_fi.F90" "a.draft" "a.json".

Definition example_mapping : mapping :=
  Mapping ["a.f"] ["a.cpp"] ["a_fi.F90"] ["a.draft"] ["a.json"].

Definition example_item2 : item :=
  Item "b.f" "b.cpp" "b_fi.F90" "b.draft" "b.json".

Definition example_store : gmap string node :=
  <["seed.toml" := File "chat"]>
    (<["a.f" := File ("C note" +:+ Py.nl +:+ "x = 1" +:+ Py.nl)]>
       (<["b.f" := File ("y = 2" +:+ Py.nl)]> ∅)).

(** The same store with an interface file left by an earlier run. *)
Definition example_store_with_interface : gmap string node :=
  <["a_fi.F90" := File "interface old"]> example_store.

Definition example_state : state :=
  State example_store example_template 0 [] [].

(** The store of the example after a run that wrote the primary file. *)
Definition example_store_done : gmap string node :=
  <["a.cpp" := File "int old;"]> example_store.

Definition example_state_done : state :=
  State example_store_done example_template 0 [] [].

(** A store where the draft of the unit is there and empty, and one where
    a source line holds the text of the draft tag. *)
Definition store_empty_draft : gmap string node :=
  <["a.draft" := File ""]> example_store.

Definition store_tag_in_source : gmap string node :=
  <["a.f" := File ("s = '<draft>'" +:+ Py.nl)]> example_store.

(** The two files of the inspection example, and a store with an empty
    file. *)
Definition inspect_store : gmap string node :=
  <["a.f" := File ("sub a" +:+ Py.nl +:+ "end" +:+ Py.nl)]>
    (<["b.f" := File ("sub b" +:+ Py.nl +:+ "end" +:+ Py.nl)]> ∅).

Definition inspect_store_empty_file : gmap string node :=
  <["e.f" := File ""]> inspect_store.

(** A store where the secondary path of the unit is a directory, a unit
    whose source is not there, and a state with an empty template. *)
Definition example_store_dir : gmap string node :=
  <["a_fi.F90" := Dir]> example_store.

Definition example_item_missing : item :=
  Item "gone.f" "gone.cpp" "gone_fi.F90" "gone.draft" "gone.json".

Definition example_state_empty : state :=
  State example_store_done [] 0 [] [].

(** * Properties *)

(** ** Strings *)

Section StringFacts.

Local Arguments String.append : simpl nomatch.

Lemma str_app_nil_r (s : string) : s +:+ "" = s.
Proof. induction s as [|c s IH]; simpl; [done | by rewrite IH]. Qed.

Lemma str_app_assoc (s t u : string) : (s +:+ t) +:+ u = s +:+ t +:+ u.
Proof. induction s as [|c s IH]; simpl; [done | by rewrite IH]. Qed.

Lemma str_length_app (s t : string) :
  String.length (s +:+ t) = String.length s + String.length t.
Proof. induction s as [|c s IH]; simpl; [done | by rewrite IH]. Qed.

Lemma str_app_cons (c : ascii) (s t : string) :
  String c s +:+ t = String c (s +:+ t).
Proof. reflexivity. Qed.

Lemma startswith_app (p r : string) : Py.startswith (p +:+ r) p = true.
Proof.
  induction p as [|c p IH]; simpl; [done |].
  by destruct (decide (c = c)).
Qed.

Lemma startswith_inv (s p : string) :
  Py.startswith s p = true → ∃ r, s = p +:+ r.
Proof.
  revert s; induction p as [|c p IH]; intros s H; simpl in *.
  - by exists s.
  - destruct s as [|d s]; [done |].
    destruct (decide (c = d)) as [->|]; [| done].
    destruct (IH _ H) as [r ->]. by exists r.
Qed.

Lemma startswith_spec (s p : string) :
  Py.startswith s p = true ↔ ∃ r, s = p +:+ r.
Proof.
  split; [apply startswith_inv |].
  intros [r ->]. apply startswith_app.
Qed.

Lemma str_drop_app (p r : string) : Py.drop (String.length p) (p +:+ r) = r.
Proof. induction p as [|c p IH]; simpl; [by destruct r | apply IH]. Qed.

(** Two ways of cutting one text: the shorter head is a prefix of the
    longer one. *)
Lemma app_eq_split (a b c d : string) :
  a +:+ b = c +:+ d → String.length a ≤ String.length c →
  ∃ m, c = a +:+ m ∧ b = m +:+ d.
Proof.
  revert c; induction a as [|x a IH]; intros c H Hl; simpl in *.
  - by exists c.
  - destruct c as [|y c]; simpl in *; [lia |].
    injection H as -> H.
    destruct (IH c H ltac:(lia)) as (m & -> & ->). by exists m.
Qed.

Lemma contains_spec (s p : string) : contains s p = true ↔ occurs p s.
Proof.
  split.
  - induction s as [|c s IH]; simpl; intros H.
    + rewrite orb_false_r in H. apply startswith_inv in H as [r ->].
      by exists "", r.
    + apply orb_true_iff in H as [H|H].
      * apply startswith_inv in H as [r ->]. by exists "", r.
      * destruct (IH H) as (a & b & ->). by exists (String c a), b.
  - intros (a & b & ->). induction a as [|c a IH]; simpl.
    + assert (Py.startswith (p +:+ b) p = true) as H by apply startswith_app.
      destruct (p +:+ b); simpl in *; by rewrite H.
    + by rewrite IH, orb_true_r.
Qed.

End StringFacts.

(** ** The search for a tagged span *)

Section SearchFacts.

Local Arguments String.append : simpl nomatch.

Variables opening close : string.

Lemma lazy_until_eq (s : string) :
  Re.lazy_until close s =
  if Py.startswith s close then Some ""
  else match s with
       | "" => None
       | String c s' => String c <$> Re.lazy_until close s'
       end.
Proof. by destruct s. Qed.

Lemma search_eq (s : string) :
  Re.search opening close s =
  match Re.match_at opening close s with
  | Some g => Some g
  | None =>
      match s with
      | "" => None
      | String _ s' => Re.search opening close s'
      end
  end.
Proof. by destruct s. Qed.

Lemma lazy_until_Some (t b : string) :
  Re.lazy_until close t = Some b →
  (∃ post, t = b +:+ close +:+ post)
  ∧ ∀ a' b', t = a' +:+ close +:+ b' → String.length b ≤ String.length a'.
Proof.
  revert b; induction t as [|x t IH]; intros b; rewrite lazy_until_eq;
    destruct (Py.startswith _ close) eqn:Hsw.
  - intros [= <-]. apply startswith_inv in Hsw as [r Hr].
    split; [by exists r | simpl; lia].
  - done.
  - intros [= <-]. apply startswith_inv in Hsw as [r Hr].
    split; [by exists r | simpl; lia].
  - destruct (Re.lazy_until close t) as [b0|] eqn:Hl; [| done].
    intros [= <-]. destruct (IH b0 eq_refl) as [[post ->] Hmin].
    split; [by exists post |].
    intros [|y a'] b' Heq; simpl in *.
    + rewrite Heq, startswith_app in Hsw. done.
    + injection Heq as _ Heq. apply Hmin in Heq. lia.
Qed.

Lemma lazy_until_None (t : string) :
  Re.lazy_until close t = None → ¬ occurs close t.
Proof.
  induction t as [|x t IH]; rewrite lazy_until_eq;
    destruct (Py.startswith _ close) eqn:Hsw; try done.
  - intros _ ([|y a] & b & Heq); simpl in *; [| done].
    by rewrite Heq, startswith_app in Hsw.
  - destruct (Re.lazy_until close t) eqn:Hl; [done |].
    intros _ ([|y a] & b & Heq); simpl in *.
    + by rewrite Heq, startswith_app in Hsw.
    + injection Heq as _ Heq. apply IH; [done | by exists a, b].
Qed.

Lemma lazy_until_first (b post : string) :
  (∀ a' b', b +:+ close +:+ post = a' +:+ close +:+ b' →
            String.length b ≤ String.length a') →
  Re.lazy_until close (b +:+ close +:+ post) = Some b.
Proof.
  induction b as [|x b IH]; intros Hmin; rewrite lazy_until_eq; simpl.
  - by rewrite startswith_app.
  - destruct (Py.startswith _ close) eqn:Hsw.
    + apply startswith_inv in Hsw as [r Hr].
      specialize (Hmin "" r Hr). simpl in Hmin. lia.
    + rewrite IH; [done |].
      intros a' b' Heq. specialize (Hmin (String x a') b').
      simpl in Hmin. rewrite Heq in Hmin. specialize (Hmin eq_refl). lia.
Qed.

Lemma match_at_Some (s g : string) :
  Re.match_at opening close s = Some g →
  ∃ post, first_span opening close s "" g post.
Proof.
  unfold Re.match_at. destruct (Py.startswith s opening) eqn:Hsw; [| done].
  apply startswith_inv in Hsw as [t ->]. rewrite str_drop_app.
  intros [[post ->] Hmin]%lazy_until_Some.
  exists post. split; [done |]. split; [simpl; lia |].
  intros a b Heq Hle. simpl in *.
  apply app_eq_split in Heq as (m & -> & Heq); [| lia].
  rewrite str_length_app. apply Hmin in Heq. lia.
Qed.

Lemma match_at_first (body post : string) :
  first_span opening close
    (opening +:+ body +:+ close +:+ post) "" body post →
  Re.match_at opening close (opening +:+ body +:+ close +:+ post)
  = Some body.
Proof.
  intros (_ & _ & Hmin). unfold Re.match_at.
  rewrite startswith_app, str_drop_app. apply lazy_until_first.
  intros a' b' Heq.
  specialize (Hmin (opening +:+ a') b'). rewrite str_length_app in Hmin.
  rewrite str_app_assoc, <- Heq in Hmin. simpl in Hmin.
  specialize (Hmin eq_refl). lia.
Qed.

Lemma match_at_None (s : string) :
  Re.match_at opening close s = None →
  ¬ ∃ body post, span opening close s "" body post.
Proof.
  unfold Re.match_at, span. intros H (body & post & ->). simpl in H.
  rewrite startswith_app, str_drop_app in H.
  apply lazy_until_None in H. apply H. by exists body, post.
Qed.

Lemma search_None (s : string) :
  Re.search opening close s = None →
  ¬ ∃ pre body post, span opening close s pre body post.
Proof.
  induction s as [|x s IH]; rewrite search_eq;
    destruct (Re.match_at opening close _) eqn:Hm; try done.
  - intros _ ([|y pre] & body & post & Heq); [| done].
    eapply match_at_None; eauto.
  - intros Hs ([|y pre] & body & post & Heq).
    + eapply match_at_None; eauto.
    + injection Heq as _ Heq. apply (IH Hs). by exists pre, body, post.
Qed.

Lemma search_Some (s body : string) :
  Re.search opening close s = Some body →
  ∃ pre post, first_span opening close s pre body post.
Proof.
  revert body; induction s as [|x s IH]; intros body; rewrite search_eq;
    destruct (Re.match_at opening close _) eqn:Hm; try done.
  - intros [= <-]. apply match_at_Some in Hm as [post H]. by exists "", post.
  - intros [= <-]. apply match_at_Some in Hm as [post H]. by exists "", post.
  - intros Hs. destruct (IH _ Hs) as (pre & post & Hsp & Ho & Hc).
    exists (String x pre), post. unfold span in Hsp. subst s.
    split; [done |]. split.
    + intros [|y a] b Heq; simpl in *.
      * exfalso. unfold Re.match_at in Hm.
        rewrite Heq, startswith_app, str_drop_app in Hm.
        apply lazy_until_None in Hm. apply Hm.
        assert (opening +:+ b
                = String x (pre +:+ opening +:+ body) +:+ close +:+ post)
          as Heq'.
        { rewrite <- Heq. simpl. by rewrite !str_app_assoc. }
        apply app_eq_split in Heq' as (m & _ & ->); [by exists m, post |].
        simpl. rewrite !str_length_app. lia.
      * injection Heq as _ Heq. apply Ho in Heq. lia.
    + intros [|y a] b Heq Hle; simpl in *; [lia |].
      injection Heq as _ Heq. apply Hc in Heq; lia.
Qed.

Lemma search_first (s pre body post : string) :
  first_span opening close s pre body post →
  Re.search opening close s = Some body.
Proof.
  revert s; induction pre as [|x pre IH]; intros s (Hsp & Ho & Hc);
    unfold span in Hsp; subst s; rewrite search_eq.
  - simpl. by rewrite match_at_first.
  - simpl. destruct (Re.match_at opening close _) as [g|] eqn:Hm.
    + unfold Re.match_at in Hm.
      destruct (Py.startswith _ opening) eqn:Hsw; [| done].
      apply startswith_inv in Hsw as [r Hr].
      specialize (Ho "" r Hr). simpl in Ho. lia.
    + apply IH. split; [done |]. split.
      * intros a b Heq. specialize (Ho (String x a) b). simpl in Ho.
        rewrite Heq in Ho. specialize (Ho eq_refl). lia.
      * intros a b Heq Hle. specialize (Hc (String x a) b). simpl in Hc.
        rewrite Heq in Hc. specialize (Hc eq_refl). lia.
Qed.

Lemma search_Some_iff (s body : string) :
  Re.search opening close s = Some body
  ↔ ∃ pre post, first_span opening close s pre body post.
Proof.
  split; [apply search_Some |].
  intros (pre & post & H). by eapply search_first.
Qed.

Lemma search_None_iff (s : string) :
  Re.search opening close s = None
  ↔ ¬ ∃ pre body post, span opening close s pre body post.
Proof.
  split; [apply search_None |].
  intros Hno. destruct (Re.search opening close s) as [g|] eqn:Hs; [| done].
  apply search_Some in Hs as (pre & post & Hsp & _).
  exfalso. apply Hno. by exists pre, g, post.
Qed.

End SearchFacts.

(** ** The comment filter *)

Lemma source_code_acc (lines acc : list string) :
  fold_left
    (fun acc line => if is_comment line then acc else acc ++ [line])
    lines acc
  = acc ++ List.filter (fun l => negb (is_comment l)) lines.
Proof.
  revert acc; induction lines as [|l lines IH]; intros acc; simpl.
  - by rewrite app_nil_r.
  - rewrite IH. destruct (is_comment l); simpl; [done |].
    by rewrite <- app_assoc.
Qed.

Lemma source_code_filter (lines : list string) :
  source_code lines = List.filter (fun l => negb (is_comment l)) lines.
Proof. unfold source_code. by rewrite source_code_acc. Qed.

Lemma startswith_any_spec (s : string) (ps : list string) :
  Py.startswith_any s ps = true ↔ ∃ m r, m ∈ ps ∧ s = m +:+ r.
Proof.
  unfold Py.startswith_any. rewrite existsb_exists. split.
  - intros (m & Hin & [r ->]%startswith_inv).
    exists m, r. split; [by apply list_elem_of_In | done].
  - intros (m & r & Hin & ->). exists m.
    split; [by apply list_elem_of_In | apply startswith_app].
Qed.

Lemma is_comment_spec (line : string) :
  is_comment line = true ↔ comment_marked line.
Proof.
  unfold is_comment, comment_marked.
  rewrite andb_true_iff, negb_true_iff, startswith_any_spec.
  rewrite <- not_true_iff_false, startswith_spec. done.
Qed.

(** C1, as the code has it: the lines kept are, in their order, the
    lines that are not comments; a line is a comment iff, trimmed and
    lower-cased, it starts with one of "c", "!!", "!" and does not start
    with "complex"; and of the lines "C note", "complex z", "! more",
    "code(1)" only "complex z" is kept, "code(1)" starting with "c". *)
Theorem comment_filter (lines : list string) :
  source_code lines = List.filter (fun l => negb (is_comment l)) lines
  ∧ (∀ line, In line lines →
       (In line (source_code lines) ↔ ¬ comment_marked line))
  ∧ Py.join (source_code example_lines) = "complex z" +:+ Py.nl.
Proof.
  split; [apply source_code_filter |]. split; [| reflexivity].
  intros line Hin. rewrite source_code_filter, filter_In, negb_true_iff.
  rewrite <- is_comment_spec, not_true_iff_false. tauto.
Qed.

(** C1, the example of the claim: the block kept from its four lines is
    not "complex z" followed by "code(1)". *)
Lemma comment_filter_example_differs :
  Py.join (source_code example_lines)
  ≠ "complex z" +:+ Py.nl +:+ "code(1)" +:+ Py.nl.
Proof. intros H. vm_compute in H. discriminate H. Qed.

(** ** The steps of a computation *)

Section Steps.

Variable toml_chat : string → option (list message).
Variable json_dump : list message → string.
Variable chat : backend → nat → list message → option string.

Lemma bind_returned {A B} (m : M A) (k : A → M B) st a st' :
  m st = (Returned a, st') → (m ≫= k) st = k a st'.
Proof. intros H. unfold mbind, M_bind, bind. by rewrite H. Qed.

Lemma bind_raised {A B} (m : M A) (k : A → M B) st e st' :
  m st = (Raised e, st') → (m ≫= k) st = (Raised e, st').
Proof. intros H. unfold mbind, M_bind, bind. by rewrite H. Qed.

Lemma drop_empty (n : nat) : Py.drop n "" = "".
Proof. by destruct n. Qed.

Lemma overlay_empty (text : string) : overlay text "" = text.
Proof. unfold overlay. by rewrite drop_empty, str_app_nil_r. Qed.

Lemma stat_writable (f : gmap string node) (p : string) :
  writable f p → stat f p ≠ Some Dir ∧ p ≠ "".
Proof.
  intros [Hp Hd]. split; [| done].
  unfold stat. by destruct (decide (p = "")).
Qed.

Lemma open_w_ok (p : string) st :
  writable (fs st) p →
  open_w p st
  = (Returned tt,
     State (<[p := File ""]> (fs st)) (chat_template st) (calls st)
           (events st ++ [OpenW p]) (stdout st)).
Proof.
  intros [Hd Hp]%stat_writable. unfold open_w.
  destruct (decide (p = "")); [done |].
  by destruct (stat (fs st) p) as [[|]|].
Qed.

Lemma writable_insert (f : gmap string node) (p q : string) (c : string) :
  writable f q → writable (<[p := File c]> f) q.
Proof.
  intros [Hq Hd]. split; [done |].
  destruct (decide (p = q)) as [->|Hne].
  - by rewrite lookup_insert_eq.
  - by rewrite lookup_insert_ne.
Qed.

(** Lines 176 to 194 on a reply: both files are opened and each holds,
    once closed, the text its stream was given. *)
Lemma generate_writes (b : backend) (u : item) (result : string) st :
  chat b (calls st) (chat_template st) = Some result →
  writable (fs st) (csource u) →
  writable (fs st) (finterface u) →
  csource u ≠ finterface u →
  ∃ st',
    generate chat b u st = (Returned tt, st')
    ∧ fs st' !! csource u = Some (File (cdest_text result))
    ∧ fs st' !! finterface u = Some (File (fdest_text result))
    ∧ (∀ p, p ≠ csource u → p ≠ finterface u → fs st' !! p = fs st !! p)
    ∧ chat_template st' = chat_template st
    ∧ events st'
      = events st ++ [Chat (chat_template st); OpenW (csource u);
                      OpenW (finterface u)].
Proof.
  intros Hc Hw1 Hw2 Hne. unfold generate.
  erewrite bind_returned; [| by unfold call_chat; rewrite Hc].
  erewrite bind_returned; [| by apply open_w_ok].
  erewrite bind_returned;
    [| by apply open_w_ok; simpl; apply writable_insert].
  unfold mbind, M_bind, bind, close_w, set_fs, text_at; simpl.
  rewrite lookup_insert_eq, overlay_empty.
  rewrite lookup_insert_ne, lookup_insert_ne, lookup_insert_eq by done.
  rewrite overlay_empty.
  eexists. split; [done |]. simpl. split; [by rewrite lookup_insert_eq |].
  split; [by rewrite lookup_insert_ne, lookup_insert_eq |].
  split; [| split; [done | by rewrite <- !app_assoc]].
  intros p H1 H2. by rewrite !lookup_insert_ne.
Qed.

End Steps.

(** ** The extraction of the two artifacts *)

(** C3: the text written as the primary artifact is the interior of the
    first [<csource>] span of the reply when it has one (and it has a
    first span as soon as it has a span), and the whole reply when it has
    none; once the backend has replied and both files are open, splitting
    the reply raises nothing and the file at the primary path holds that
    text; and the reply of the example gives "IMPL" and "IFACE". *)
Theorem primary_extraction
    (chat : backend → nat → list message → option string)
    (result : string) :
  (∀ pre body post,
     first_span "<csource>" "</csource>" result pre body post →
     cdest_text result = body)
  ∧ ((∃ pre body post, span "<csource>" "</csource>" result pre body post) →
     ∃ pre body post,
       first_span "<csource>" "</csource>" result pre body post)
  ∧ ((¬ ∃ pre body post,
          span "<csource>" "</csource>" result pre body post) →
     cdest_text result = result)
  ∧ (∀ b u st,
       chat b (calls st) (chat_template st) = Some result →
       writable (fs st) (csource u) →
       writable (fs st) (finterface u) →
       csource u ≠ finterface u →
       ∃ st', generate chat b u st = (Returned tt, st')
              ∧ fs st' !! csource u = Some (File (cdest_text result)))
  ∧ cdest_text example_response = "IMPL"
  ∧ fdest_written example_response = Some "IFACE".
Proof.
  unfold cdest_text, Re.search_tag.
  split; [| split; [| split; [| split]]].
  - intros pre body post H. by erewrite search_first.
  - intros Hsp.
    destruct (Re.search "<csource>" "</csource>" result) as [g|] eqn:Hs.
    + apply search_Some in Hs as (pre & post & H). by exists pre, g, post.
    + by apply search_None in Hs.
  - intros Hno. apply search_None_iff in Hno.
    change (Re.open_tag "csource") with "<csource>".
    change (Re.close_tag "csource") with "</csource>". by rewrite Hno.
  - intros b u st Hc Hw1 Hw2 Hne.
    destruct (generate_writes chat b u result st Hc Hw1 Hw2 Hne)
      as (st' & Hg & Hcs & _).
    by exists st'.
  - by vm_compute.
Qed.

(** C3 at the example: the unit of the example, on the reply of the
    example. *)
Lemma primary_extraction_witness :
  ∃ st',
    generate (reply_with example_response) OpenAIModel example_item
      example_state = (Returned tt, st')
    ∧ fs st' !! "a.cpp" = Some (File "IMPL").
Proof.
  destruct (primary_extraction (reply_with example_response)
              example_response) as (_ & _ & _ & H & _).
  apply (H OpenAIModel example_item example_state).
  - reflexivity.
  - split; [discriminate | by vm_compute].
  - split; [discriminate | by vm_compute].
  - discriminate.
Defined.

(** C4, as the claim has it, fails: a reply that is not empty, whose
    primary span is empty, gives the empty text. *)
Lemma primary_text_empty :
  "<csource></csource>" ≠ "" ∧ cdest_text "<csource></csource>" = "".
Proof. split; [discriminate | reflexivity]. Qed.

(** C4, as the code has it: the primary text of a reply that is not empty
    is the interior of its first [<csource>] span or, when it has no
    span, the whole reply; it is empty exactly when that first span has
    an empty interior. *)
Theorem primary_text_populated (result : string) :
  result ≠ "" →
  ((∃ pre body post,
      first_span "<csource>" "</csource>" result pre body post
      ∧ cdest_text result = body)
   ∨ ((¬ ∃ pre body post,
          span "<csource>" "</csource>" result pre body post)
      ∧ cdest_text result = result))
  ∧ (cdest_text result = ""
     ↔ ∃ pre post, first_span "<csource>" "</csource>" result pre "" post).
Proof.
  intros Hne. unfold cdest_text, Re.search_tag.
  change (Re.open_tag "csource") with "<csource>".
  change (Re.close_tag "csource") with "</csource>".
  destruct (Re.search "<csource>" "</csource>" result) as [g|] eqn:Hs.
  - pose proof Hs as (pre & post & H)%search_Some. split.
    + left. by exists pre, g, post.
    + split; [intros ->; by exists pre, post |].
      intros (pre' & post' & H'). apply search_first in H'. congruence.
  - split.
    + right. split; [by apply search_None | done].
    + split; [done |].
      intros (pre & post & H). apply search_first in H. congruence.
Qed.

Lemma primary_text_populated_witness :
  cdest_text example_response = ""
  ↔ ∃ pre post,
      first_span "<csource>" "</csource>" example_response pre "" post.
Proof.
  apply (primary_text_populated example_response). discriminate.
Defined.

(** ** The secondary artifact *)

(** C2, as the claim has it, fails: on a reply without [<fsource>] span
    the file at the secondary path is created when it was not there, and
    emptied when it was. *)
Lemma secondary_file_touched :
  let run f :=
    fs (snd (prompt_translate example_toml example_json
               (reply_with "int main() {}") example_mapping "seed.toml"
               (Some "openai") false (start f))) in
  (¬ ∃ pre body post,
       span "<fsource>" "</fsource>" "int main() {}" pre body post)
  ∧ example_store !! "a_fi.F90" = None
  ∧ run example_store !! "a_fi.F90" = Some (File "")
  ∧ example_store_with_interface !! "a_fi.F90"
    = Some (File "interface old")
  ∧ run example_store_with_interface !! "a_fi.F90" = Some (File "").
Proof.
  split; [by apply search_None; vm_compute |].
  by vm_compute.
Qed.

(** C2, as the code has it: on a reply without [<fsource>] span,
    [fdest.write] is not called, yet the file at the secondary path,
    opened for writing with the primary one, is there afterwards and is
    empty, whatever it held. *)
Theorem secondary_absent_truncates
    (chat : backend → nat → list message → option string)
    (b : backend) (u : item) (result : string) (st : state) :
  chat b (calls st) (chat_template st) = Some result →
  (¬ ∃ pre body post,
       span "<fsource>" "</fsource>" result pre body post) →
  writable (fs st) (csource u) →
  writable (fs st) (finterface u) →
  csource u ≠ finterface u →
  fdest_written result = None
  ∧ ∃ st', generate chat b u st = (Returned tt, st')
           ∧ fs st' !! finterface u = Some (File "")
           ∧ In (OpenW (finterface u)) (events st').
Proof.
  intros Hc Hno Hw1 Hw2 Hne.
  assert (fdest_written result = None) as Hf
    by (by apply search_None_iff in Hno).
  split; [done |].
  destruct (generate_writes chat b u result st Hc Hw1 Hw2 Hne)
    as (st' & Hg & _ & Hfi & _ & _ & Hev).
  exists st'. split; [done |]. split.
  - rewrite Hfi. unfold fdest_text. by rewrite Hf.
  - rewrite Hev, in_app_iff. right. simpl. tauto.
Qed.

Lemma secondary_absent_truncates_witness :
  fdest_written "int main() {}" = None
  ∧ ∃ st',
      generate (reply_with "int main() {}") OpenAIModel example_item
        example_state = (Returned tt, st')
      ∧ fs st' !! "a_fi.F90" = Some (File "")
      ∧ In (OpenW "a_fi.F90") (events st').
Proof.
  apply (secondary_absent_truncates (reply_with "int main() {}")
           OpenAIModel example_item "int main() {}" example_state).
  - reflexivity.
  - by apply search_None; vm_compute.
  - split; [discriminate | by vm_compute].
  - split; [discriminate | by vm_compute].
  - discriminate.
Defined.

(** ** The choice of the backend *)

(** C5, as the claim has it, fails: the empty selector names no path and
    is not "openai", and yet no error is raised: no backend is built and
    the units are processed without one. *)
Lemma empty_selector_no_error :
  path_exists example_store "" = false
  ∧ Py.lower "" ≠ "openai"
  ∧ select_model "Starting neural conversion process" (Some "")
      (start example_store)
    = (Returned None, start example_store)
  ∧ fst (prompt_translate example_toml example_json
           (reply_with example_response) example_mapping "seed.toml"
           (Some "") false (start example_store)) = Returned tt.
Proof. by vm_compute. Qed.

(** C5, as the code has it: a selector that is not empty builds the
    local backend when it names an existing path, otherwise the hosted
    one when it is "openai" up to case, and otherwise raises an error
    whose message starts with the selector, before any file is opened,
    the backend is called or the store is changed. *)
Theorem backend_selection
    (toml_chat : string → option (list message))
    (json_dump : list message → string)
    (chat : backend → nat → list message → option string)
    (m : string) (f : gmap string node) (mp : mapping)
    (seed_prompt banner : string) (save_prompts : bool) :
  m ≠ "" →
  (path_exists f m = true →
   fst (select_model banner (Some m) (start f))
   = Returned (Some (TFModel m)))
  ∧ (path_exists f m = false → Py.lower m = "openai" →
     fst (select_model banner (Some m) (start f))
     = Returned (Some OpenAIModel))
  ∧ (path_exists f m = false → Py.lower m ≠ "openai" →
     ∃ st',
       prompt_translate toml_chat json_dump chat mp seed_prompt (Some m)
         save_prompts (start f)
       = (Raised (ValueError (m +:+ " not available")), st')
       ∧ fs st' = f ∧ events st' = [] ∧ calls st' = 0).
Proof.
  intros Hm. unfold prompt_translate, select_model.
  destruct (decide (m = "")); [done |].
  unfold mbind, M_bind, bind; simpl.
  split; [by intros -> |]. split.
  - intros -> Hl. by destruct (decide (Py.lower m = "openai")).
  - intros -> Hl. destruct (decide (Py.lower m = "openai")); [done |].
    by eexists.
Qed.

Lemma backend_selection_witness :
  ∃ st',
    prompt_translate example_toml example_json
      (reply_with example_response) example_mapping "seed.toml"
      (Some "gpt-4o") false (start example_store)
    = (Raised (ValueError "gpt-4o not available"), st')
    ∧ fs st' = example_store ∧ events st' = [] ∧ calls st' = 0.
Proof.
  destruct (backend_selection example_toml example_json
              (reply_with example_response) "gpt-4o" example_store
              example_mapping "seed.toml"
              "Starting neural conversion process" false)
    as (_ & _ & H); [discriminate |].
  apply H; [by vm_compute | discriminate].
Defined.

(** ** What every step keeps *)

Lemma set_last_content_cons (v : string) (m m' : message)
    (t : list message) :
  set_last_content v (m :: m' :: t) = m :: set_last_content v (m' :: t).
Proof. reflexivity. Qed.

Lemma set_last_content_nil (v : string) (t : list message) :
  set_last_content v t = [] → t = [].
Proof. destruct t as [|m [|m' t]]; done. Qed.

Lemma set_last_content_twice (v w : string) (t : list message) :
  set_last_content v (set_last_content w t) = set_last_content v t.
Proof.
  induction t as [|m t IH]; [done |].
  destruct t as [|m' t]; [done |].
  rewrite !set_last_content_cons.
  destruct (set_last_content w (m' :: t)) as [|m1 t1] eqn:E.
  - by apply set_last_content_nil in E.
  - rewrite set_last_content_cons. by rewrite IH.
Qed.

Lemma set_last_content_self (t : list message) (m : message) :
  last t = Some m → set_last_content (content m) t = t.
Proof.
  induction t as [|m0 t IH]; [done |].
  destruct t as [|m' t].
  - intros [= ->]. by destruct m.
  - intros H. rewrite set_last_content_cons. by rewrite IH.
Qed.

Lemma last_set_last_content (v : string) (t : list message) (m : message) :
  last t = Some m →
  last (set_last_content v t) = Some (Message (role m) v).
Proof.
  induction t as [|m0 t IH]; [done |].
  destruct t as [|m' t].
  - by intros [= ->].
  - intros H. rewrite set_last_content_cons. specialize (IH H).
    destruct (set_last_content v (m' :: t)) as [|m1 t1] eqn:E; [done |].
    done.
Qed.

Lemma template_frame_refl (t : list message) :
  ∃ v, t = set_last_content v t.
Proof.
  destruct (last t) as [m|] eqn:Hl.
  - exists (content m). by rewrite set_last_content_self.
  - exists "". destruct t as [|m t]; [done |].
    by rewrite last_cons in Hl; destruct (last t).
Qed.

#[export] Instance step_preorder : PreOrder step.
Proof.
  split.
  - intros st. split; [apply template_frame_refl | done | done |].
    exists []. by rewrite app_nil_r.
  - intros s1 s2 s3 [[v Hv] Hf He [l Hl]] [[v' Hv'] Hf' He' [l' Hl']].
    split; [| by auto | by auto |].
    + exists v'. by rewrite Hv', Hv, set_last_content_twice.
    + exists (l ++ l'). by rewrite Hl', Hl, <- app_assoc.
Qed.

Lemma preserves_ret {A} (a : A) : preserves (ret a).
Proof. intros st r st' [= <- <-]. reflexivity. Qed.

Lemma preserves_mret {A} (a : A) : preserves (mret a : M A).
Proof. apply preserves_ret. Qed.

Lemma preserves_raise {A} (e : exn) : preserves (raise e : M A).
Proof. intros st r st' [= <- <-]. reflexivity. Qed.

Lemma preserves_bind {A B} (m : M A) (k : A → M B) :
  preserves m → (∀ a, preserves (k a)) → preserves (m ≫= k).
Proof.
  intros Hm Hk st r st'. unfold mbind, M_bind, bind.
  destruct (m st) as [[a|e] st1] eqn:E.
  - intros H. etrans; [by eapply Hm | by eapply Hk].
  - intros [= <- <-]. by eapply Hm.
Qed.

Lemma preserves_get_state : preserves get_state.
Proof. intros st r st' [= <- <-]. reflexivity. Qed.

Lemma preserves_emit (e : event) : preserves (emit e).
Proof.
  intros st r st' [= <- <-].
  split; simpl; [apply template_frame_refl | done | done | by eexists].
Qed.

Lemma preserves_print (s : string) : preserves (print s).
Proof.
  intros st r st' [= <- <-].
  split; simpl; [apply template_frame_refl | done | done |].
  exists []. by rewrite app_nil_r.
Qed.

Lemma isfile_insert (f : gmap string node) (p q c : string) :
  isfile f q = true → isfile (<[p := File c]> f) q = true.
Proof.
  unfold isfile, stat. destruct (decide (q = "")); [done |].
  destruct (decide (p = q)) as [->|Hne].
  - by rewrite lookup_insert_eq.
  - by rewrite lookup_insert_ne.
Qed.

Lemma path_exists_insert (f : gmap string node) (p q c : string) :
  path_exists f q = true → path_exists (<[p := File c]> f) q = true.
Proof.
  unfold path_exists, stat. destruct (decide (q = "")); [done |].
  destruct (decide (p = q)) as [->|Hne].
  - by rewrite lookup_insert_eq.
  - by rewrite lookup_insert_ne.
Qed.

Lemma preserves_open_r (p : string) : preserves (open_r p).
Proof.
  intros st r st'. unfold open_r.
  destruct (stat (fs st) p) as [[c|]|].
  - apply preserves_bind; [apply preserves_emit |].
    intros _. apply preserves_ret.
  - intros [= <- <-]. reflexivity.
  - intros [= <- <-]. reflexivity.
Qed.

Lemma preserves_read_lines (p : string) : preserves (read_lines p).
Proof.
  apply preserves_bind; [apply preserves_open_r |].
  intros a. apply preserves_ret.
Qed.

Lemma step_write (p c : string) (l : list event) st :
  step st (State (<[p := File c]> (fs st)) (chat_template st) (calls st)
                 (events st ++ l) (stdout st)).
Proof.
  split; simpl.
  - apply template_frame_refl.
  - intros q. apply isfile_insert.
  - intros q. apply path_exists_insert.
  - by exists l.
Qed.

Lemma preserves_open_w (p : string) : preserves (open_w p).
Proof.
  intros st r st'. unfold open_w.
  destruct (stat (fs st) p) as [[c|]|];
    [| intros [= <- <-]; reflexivity |];
    (destruct (decide (p = "")); [intros [= <- <-]; reflexivity |]);
    unfold mbind, M_bind, bind, emit, set_fs; simpl;
    intros [= <- <-]; apply step_write.
Qed.

Lemma preserves_close_w (p text : string) : preserves (close_w p text).
Proof.
  intros st r st' [= <- <-]. unfold set_fs.
  rewrite <- (app_nil_r (events st)). apply step_write.
Qed.

Lemma preserves_get_seed : preserves get_seed.
Proof.
  intros st r st'. unfold get_seed.
  destruct (last (chat_template st)); intros [= <- <-]; reflexivity.
Qed.

Lemma preserves_set_seed (v : string) : preserves (set_seed v).
Proof.
  intros st r st'. unfold set_seed, set_template.
  destruct (last (chat_template st)); intros [= <- <-]; [| reflexivity].
  split; simpl; [by eexists | done | done |].
  exists []. by rewrite app_nil_r.
Qed.

Lemma preserves_append_seed (v : string) : preserves (append_seed v).
Proof.
  apply preserves_bind; [apply preserves_get_seed |].
  intros a. apply preserves_set_seed.
Qed.

Lemma bind_inv_returned {A B} (m : M A) (k : A → M B) st b st' :
  (m ≫= k) st = (Returned b, st') →
  ∃ a st1, m st = (Returned a, st1) ∧ k a st1 = (Returned b, st').
Proof.
  unfold mbind, M_bind, bind.
  destruct (m st) as [[a|e] st1]; [| done]. intros H. by exists a, st1.
Qed.

Lemma for_each_app_returned {A} (body : A → M unit) (l1 l2 : list A)
    st st1 :
  for_each l1 body st = (Returned tt, st1) →
  for_each (l1 ++ l2) body st = for_each l2 body st1.
Proof.
  revert st; induction l1 as [|x l1 IH]; intros st; simpl.
  - by intros [= <-].
  - intros (a & s & Hx & Hl)%bind_inv_returned.
    erewrite bind_returned by done. by apply IH.
Qed.

Lemma for_each_app_raised {A} (body : A → M unit) (l1 l2 : list A)
    st e st1 :
  for_each l1 body st = (Raised e, st1) →
  for_each (l1 ++ l2) body st = (Raised e, st1).
Proof.
  revert st; induction l1 as [|x l1 IH]; intros st; simpl; [done |].
  unfold mbind, M_bind, bind.
  destruct (body x st) as [[a|e'] s]; [by apply IH | done].
Qed.

Create HintDb preserves.

#[local] Hint Resolve preserves_ret preserves_mret preserves_raise
  preserves_get_state preserves_emit preserves_print preserves_open_r
  preserves_read_lines preserves_open_w preserves_close_w
  preserves_get_seed preserves_set_seed preserves_append_seed : preserves.

Ltac preserve :=
  repeat first
    [ solve [auto with preserves]
    | apply preserves_bind; [| intros ?]
    | match goal with
      | |- preserves (if ?b then _ else _) => destruct b
      | |- preserves (match ?x with _ => _ end) => destruct x
      end ].

Section Frames.

Variable json_dump : list message → string.
Variable chat : backend → nat → list message → option string.

Lemma preserves_call_chat (b : backend) : preserves (call_chat chat b).
Proof.
  intros st r st'. unfold call_chat.
  assert (step st (State (fs st) (chat_template st) (S (calls st))
                     (events st ++ [Chat (chat_template st)]) (stdout st)))
    by (split; simpl; [apply template_frame_refl | done | done | by eexists]).
  by destruct (chat b (calls st) (chat_template st)); intros [= <- <-].
Qed.

Lemma preserves_dump_prompt (p : string) :
  preserves (dump_prompt json_dump p).
Proof. unfold dump_prompt. preserve. Qed.

Lemma preserves_generate (b : backend) (u : item) :
  preserves (generate chat b u).
Proof.
  unfold generate. pose proof preserves_call_chat. preserve.
Qed.

Lemma preserves_inject_source (u : item) : preserves (inject_source u).
Proof. unfold inject_source. preserve. Qed.

Lemma preserves_inject_draft (u : item) : preserves (inject_draft u).
Proof. unfold inject_draft. preserve. Qed.

Lemma preserves_translate_item (nm : option backend) (sp : bool)
    (u : item) :
  preserves (translate_item json_dump chat nm sp u).
Proof.
  unfold translate_item, process_item.
  pose proof preserves_dump_prompt. pose proof preserves_generate.
  pose proof preserves_inject_source. pose proof preserves_inject_draft.
  preserve.
Qed.

Lemma preserves_for_each {A} (body : A → M unit) (l : list A) :
  (∀ x, preserves (body x)) → preserves (for_each l body).
Proof. intros H. induction l; simpl; preserve. Qed.

Lemma preserves_save (sp : bool) (u : item) :
  preserves (if sp
             then dump_prompt json_dump (promptfile u);;
                  print ("Generated prompt file for LLM consumption "
                         +:+ promptfile u)
             else ret tt).
Proof. pose proof preserves_dump_prompt. preserve. Qed.

Lemma preserves_backend (nm : option backend) (u : item) :
  preserves (match nm with
             | Some b => generate chat b u
             | None => ret tt
             end).
Proof. pose proof preserves_generate. preserve. Qed.

(** A unit that returns leaves the conversation as it found it. *)
Lemma translate_item_restores (nm : option backend) (sp : bool) (u : item)
    st st' :
  translate_item json_dump chat nm sp u st = (Returned tt, st') →
  chat_template st' = chat_template st.
Proof.
  unfold translate_item, process_item.
  intros (s0 & ? & [= <- <-] & H)%bind_inv_returned.
  destruct (negb (isfile (fs st) (csource u)) || sp); [| by injection H as <-].
  apply bind_inv_returned in H as (cached & s1 & Hseed & H).
  unfold get_seed in Hseed.
  destruct (last (chat_template st)) as [m|] eqn:Hlast; [| done].
  injection Hseed as <- <-.
  apply bind_inv_returned in H as (? & s2 & H2 & H).
  apply bind_inv_returned in H as (? & s3 & H3 & H).
  apply bind_inv_returned in H as (? & s4 & H4 & H).
  apply bind_inv_returned in H as (? & s5 & H5 & H).
  assert (step st s5) as [[v Hv] _ _ _].
  { etrans; [by eapply preserves_inject_source |].
    etrans; [by eapply preserves_inject_draft |].
    etrans; [by eapply preserves_save | by eapply preserves_backend]. }
  unfold set_seed, set_template in H.
  destruct (last (chat_template s5)); [| done]. injection H as <-. simpl.
  rewrite Hv, set_last_content_twice. by apply set_last_content_self.
Qed.

Lemma for_each_restores (nm : option backend) (sp : bool) (us : list item)
    st st' :
  for_each us (translate_item json_dump chat nm sp) st = (Returned tt, st') →
  chat_template st' = chat_template st.
Proof.
  revert st; induction us as [|u us IH]; intros st; simpl.
  - by intros [= <-].
  - intros ([] & s & Hu & Hl)%bind_inv_returned.
    rewrite (IH _ Hl). by eapply translate_item_restores.
Qed.

End Frames.

(** ** The seed of the template across a batch *)

(** C6, as the claim has it, fails: when the backend raises, the run
    stops with the injected text still in the last message. *)
Lemma seed_not_restored_on_error :
  let r := translate_item example_json failing_backend (Some OpenAIModel)
             false example_item example_state in
  fst r = Raised BackendError
  ∧ content <$> last (chat_template example_state) = Some "SEED"
  ∧ content <$> last (chat_template (snd r))
    = Some ("SEED" +:+ Py.nl +:+ "<source>" +:+ Py.nl +:+ "x = 1" +:+ Py.nl
            +:+ "</source>")
  ∧ chat_template (snd r) ≠ chat_template example_state.
Proof.
  split; [by vm_compute |]. split; [by vm_compute |].
  split; [by vm_compute |]. intros H. vm_compute in H. discriminate H.
Qed.

(** C6, as the code has it: a unit that returns, processed or skipped,
    leaves the conversation exactly as it found it, so after any units
    that returned the following ones start from the conversation the
    batch started with; a unit that raises stops the batch, with nothing
    restored and no unit after it. *)
Theorem seed_restored
    (json_dump : list message → string)
    (chat : backend → nat → list message → option string)
    (nm : option backend) (sp : bool) (us1 us2 : list item) (st : state) :
  (∀ u st1,
     translate_item json_dump chat nm sp u st = (Returned tt, st1) →
     chat_template st1 = chat_template st)
  ∧ (∀ st1,
       for_each us1 (translate_item json_dump chat nm sp) st
       = (Returned tt, st1) →
       chat_template st1 = chat_template st
       ∧ for_each (us1 ++ us2) (translate_item json_dump chat nm sp) st
         = for_each us2 (translate_item json_dump chat nm sp) st1)
  ∧ (∀ e st1,
       for_each us1 (translate_item json_dump chat nm sp) st
       = (Raised e, st1) →
       for_each (us1 ++ us2) (translate_item json_dump chat nm sp) st
       = (Raised e, st1)).
Proof.
  split; [| split].
  - intros u st1. apply translate_item_restores.
  - intros st1 H. split; [by eapply for_each_restores |].
    by apply for_each_app_returned.
  - intros e st1. apply for_each_app_raised.
Qed.

Lemma seed_restored_witness :
  let body := translate_item example_json (reply_with example_response)
                (Some OpenAIModel) false in
  chat_template (snd (for_each [example_item] body example_state))
  = chat_template example_state
  ∧ for_each ([example_item] ++ [example_item2]) body example_state
    = for_each [example_item2] body
        (snd (for_each [example_item] body example_state)).
Proof.
  destruct (seed_restored example_json (reply_with example_response)
              (Some OpenAIModel) false [example_item] [example_item2]
              example_state) as (_ & H & _).
  apply H. by vm_compute.
Defined.

(** ** Running a batch again *)

Section Rerun.

Variable toml_chat : string → option (list message).
Variable json_dump : list message → string.
Variable chat : backend → nat → list message → option string.

Lemma open_w_returned (p : string) st st' :
  open_w p st = (Returned tt, st') → p ≠ "".
Proof.
  unfold open_w.
  by destruct (stat (fs st) p) as [[c|]|]; destruct (decide (p = "")).
Qed.

Lemma generate_returned_isfile (b : backend) (u : item) st st' :
  generate chat b u st = (Returned tt, st') →
  isfile (fs st') (csource u) = true.
Proof.
  unfold generate.
  intros (result & s1 & _ & H)%bind_inv_returned.
  apply bind_inv_returned in H as ([] & s2 & Hcs%open_w_returned & H).
  apply bind_inv_returned in H as ([] & s3 & _ & H).
  apply bind_inv_returned in H as ([] & s4 & _ & H).
  injection H as <-. simpl. unfold isfile, stat.
  destruct (decide (csource u = "")); [done |].
  by rewrite lookup_insert_eq.
Qed.

Lemma translate_item_returned_isfile (b : backend) (sp : bool) (u : item)
    st st' :
  translate_item json_dump chat (Some b) sp u st = (Returned tt, st') →
  isfile (fs st') (csource u) = true.
Proof.
  unfold translate_item, process_item.
  intros (? & ? & [= <- <-] & H)%bind_inv_returned.
  destruct (isfile (fs st) (csource u)) eqn:Hf, sp; simpl in H;
    try (by injection H as <-);
    apply bind_inv_returned in H as (cached & s1 & _ & H);
    apply bind_inv_returned in H as (? & s2 & _ & H);
    apply bind_inv_returned in H as (? & s3 & _ & H);
    apply bind_inv_returned in H as (? & s4 & _ & H);
    apply bind_inv_returned in H as ([] & s5 & H5 & H);
    apply generate_returned_isfile in H5;
    by eapply preserves_set_seed.
Qed.

Lemma for_each_returned_isfile (b : backend) (sp : bool) (us : list item)
    st st' :
  for_each us (translate_item json_dump chat (Some b) sp) st
  = (Returned tt, st') →
  ∀ u, In u us → isfile (fs st') (csource u) = true.
Proof.
  revert st; induction us as [|u0 us IH]; intros st; simpl; [done |].
  intros ([] & s & Hu & Hl)%bind_inv_returned u [<-|Hin].
  - assert (step s st') as Hstep.
    { eapply preserves_for_each; [| done].
      intros x. apply preserves_translate_item. }
    apply Hstep. by eapply translate_item_returned_isfile.
  - by eapply IH.
Qed.

(** The guard of line 132 on a unit whose primary file is there, with no
    prompt-saving: the [else: continue] branch, and nothing else. *)
Lemma translate_item_skips (nm : option backend) (u : item) st :
  isfile (fs st) (csource u) = true →
  translate_item json_dump chat nm false u st = (Returned tt, st).
Proof.
  intros H. unfold translate_item, mbind, M_bind, bind; simpl.
  by rewrite H.
Qed.

Lemma for_each_skips (nm : option backend) (us : list item) st :
  (∀ u, In u us → isfile (fs st) (csource u) = true) →
  for_each us (translate_item json_dump chat nm false) st
  = (Returned tt, st).
Proof.
  induction us as [|u us IH]; intros H; simpl; [done |].
  erewrite bind_returned; [| apply translate_item_skips, H; by left].
  apply IH. intros u' Hin. apply H. by right.
Qed.

End Rerun.

Lemma select_model_returned (banner m : string) (nm : option backend)
    st st' :
  m ≠ "" →
  select_model banner (Some m) st = (Returned nm, st') →
  fs st' = fs st
  ∧ (∃ b, nm = Some b)
  ∧ (path_exists (fs st) m = true ∨ Py.lower m = "openai").
Proof.
  intros Hm. unfold select_model, mbind, M_bind, bind; simpl.
  destruct (decide (m = "")); [done |]. simpl.
  destruct (path_exists (fs st) m).
  - intros [= <- <-]. eauto.
  - destruct (decide (Py.lower m = "openai")); [| done].
    intros [= <- <-]. eauto.
Qed.

Lemma select_model_ok (banner m : string) st :
  m ≠ "" →
  path_exists (fs st) m = true ∨ Py.lower m = "openai" →
  ∃ b, select_model banner (Some m) st
       = (Returned (Some b),
          State (fs st) (chat_template st) (calls st) (events st)
                (stdout st ++ [banner])).
Proof.
  intros Hm Hor. unfold select_model, mbind, M_bind, bind; simpl.
  destruct (decide (m = "")); [done |]. simpl.
  destruct (path_exists (fs st) m); [by eexists |].
  destruct Hor as [|Hl]; [done |].
  destruct (decide (Py.lower m = "openai")); [by eexists | done].
Qed.

Lemma load_template_returned
    (toml_chat : string → option (list message)) (seed : string)
    (t : list message) st st' :
  load_template toml_chat seed st = (Returned t, st') →
  fs st' = fs st ∧ isfile (fs st) seed = true.
Proof.
  unfold load_template, open_r, isfile, mbind, M_bind, bind.
  destruct (stat (fs st) seed) as [[c|]|]; [| done | done]. simpl.
  by destruct (toml_chat _); intros [= <- <-].
Qed.

Lemma load_template_ok
    (toml_chat : string → option (list message)) (seed c : string)
    (t : list message) st :
  stat (fs st) seed = Some (File c) →
  toml_chat (Py.universal_newlines c) = Some t →
  load_template toml_chat seed st
  = (Returned t,
     State (fs st) (chat_template st) (calls st)
           (events st ++ [OpenR seed]) (stdout st)).
Proof.
  intros Hs Ht. unfold load_template, open_r, mbind, M_bind, bind.
  rewrite Hs. simpl. by rewrite Ht.
Qed.

(** C7, as the claim has it, fails: a run without backend returns and
    writes no primary file, so the same run again does not skip the
    unit: it opens its source again. *)
Lemma rerun_without_backend_not_skipped :
  let run f :=
    prompt_translate example_toml example_json
      (reply_with example_response) example_mapping "seed.toml" None
      false (start f) in
  let st1 := snd (run example_store) in
  fst (run example_store) = Returned tt
  ∧ isfile (fs st1) "a.cpp" = false
  ∧ fst (run (fs st1)) = Returned tt
  ∧ events (snd (run (fs st1))) = [OpenR "seed.toml"; OpenR "a.f"].
Proof. by vm_compute. Qed.

(** C7, as the code has it: after a run with a backend that returned,
    the primary file of every unit is there; a unit whose primary file is
    there is, without prompt-saving, skipped with no effect at all; and
    the same batch run again without prompt-saving, its template still
    parsing, returns with the store unchanged, no backend call, and no
    file opened but the template. *)
Theorem rerun_skips
    (toml_chat : string → option (list message))
    (json_dump : list message → string)
    (chat chat' : backend → nat → list message → option string)
    (mp : mapping) (seed_prompt m : string) (save_prompts : bool)
    (f : gmap string node) (st1 : state) :
  m ≠ "" →
  prompt_translate toml_chat json_dump chat mp seed_prompt (Some m)
    save_prompts (start f) = (Returned tt, st1) →
  (∀ c, fs st1 !! seed_prompt = Some (File c) →
        is_Some (toml_chat (Py.universal_newlines c))) →
  (∀ u, In u (items mp) → isfile (fs st1) (csource u) = true)
  ∧ (∀ nm u st,
       isfile (fs st) (csource u) = true →
       translate_item json_dump chat' nm false u st = (Returned tt, st))
  ∧ ∃ st2,
      prompt_translate toml_chat json_dump chat' mp seed_prompt (Some m)
        false (start (fs st1)) = (Returned tt, st2)
      ∧ fs st2 = fs st1
      ∧ events st2 = [OpenR seed_prompt]
      ∧ calls st2 = 0.
Proof.
  intros Hm Hrun Htoml. unfold prompt_translate in Hrun.
  apply bind_inv_returned in Hrun as (nm & s1 & Hsel & Hrun).
  apply bind_inv_returned in Hrun as ([] & s2 & Hpr & Hrun).
  apply bind_inv_returned in Hrun as (t & s3 & Hload & Hrun).
  apply bind_inv_returned in Hrun as ([] & s4 & Hset & Hloop).
  apply select_model_returned in Hsel as (Hf1 & [b ->] & Hor); [| done].
  assert (fs s2 = fs s1) as Hf2
    by (by destruct save_prompts; injection Hpr as <-).
  apply load_template_returned in Hload as [Hf3 Hseed].
  injection Hset as <-.
  assert (step (State (fs s3) t (calls s3) (events s3) (stdout s3)) st1)
    as [_ Hfile Hex _].
  { eapply preserves_for_each; [| done].
    intros x. apply preserves_translate_item. }
  simpl in *. rewrite Hf3, Hf2, Hf1 in *.
  assert (∀ u, In u (items mp) → isfile (fs st1) (csource u) = true)
    as Hall by (by eapply for_each_returned_isfile).
  split; [done |]. split; [intros; by apply translate_item_skips |].
  destruct (select_model_ok "Starting neural conversion process" m
              (start (fs st1)) Hm) as [b' Hsel'].
  { destruct Hor as [He|]; [left; by apply Hex | by right]. }
  apply Hfile in Hseed. unfold isfile in Hseed.
  destruct (stat (fs st1) seed_prompt) as [[c|]|] eqn:Hstat; try done.
  destruct (Htoml c) as [t' Ht'].
  { unfold stat in Hstat. by destruct (decide (seed_prompt = "")). }
  unfold prompt_translate.
  erewrite bind_returned by done.
  erewrite bind_returned by done.
  erewrite bind_returned by (by eapply load_template_ok).
  erewrite bind_returned by done.
  rewrite for_each_skips by done.
  by eexists.
Qed.

Lemma rerun_skips_witness :
  let st1 :=
    snd (prompt_translate example_toml example_json
           (reply_with example_response) example_mapping "seed.toml"
           (Some "openai") true (start example_store)) in
  ∃ st2,
    prompt_translate example_toml example_json failing_backend
      example_mapping "seed.toml" (Some "openai") false (start (fs st1))
    = (Returned tt, st2)
    ∧ fs st2 = fs st1
    ∧ events st2 = [OpenR "seed.toml"]
    ∧ calls st2 = 0.
Proof.
  intros st1.
  destruct (rerun_skips example_toml example_json
              (reply_with example_response) failing_backend
              example_mapping "seed.toml" "openai" true example_store st1)
    as (_ & _ & H).
  - discriminate.
  - by vm_compute.
  - intros c _. by eexists.
  - exact H.
Defined.

(** ** The steps of a unit, run *)

Section Run.

Variable json_dump : list message → string.
Variable chat : backend → nat → list message → option string.

Lemma append_seed_ok (v : string) (m : message) st :
  last (chat_template st) = Some m →
  append_seed v st
  = (Returned tt,
     State (fs st) (set_last_content (content m +:+ v) (chat_template st))
           (calls st) (events st) (stdout st)).
Proof.
  intros H. unfold append_seed, get_seed, set_seed, set_template,
    mbind, M_bind, bind.
  by rewrite H; simpl; rewrite H.
Qed.

Lemma read_lines_ok (p c : string) st :
  stat (fs st) p = Some (File c) →
  read_lines p st
  = (Returned (Py.readlines (Py.universal_newlines c)),
     State (fs st) (chat_template st) (calls st)
           (events st ++ [OpenR p]) (stdout st)).
Proof.
  intros H. unfold read_lines, open_r, mbind, M_bind, bind.
  by rewrite H.
Qed.

Lemma inject_source_ok (u : item) (src : string) (m : message) st :
  last (chat_template st) = Some m →
  stat (fs st) (fsource u) = Some (File src) →
  inject_source u st
  = (Returned tt,
     State (fs st)
           (set_last_content (content m +:+ source_part src)
              (chat_template st))
           (calls st) (events st ++ [OpenR (fsource u)]) (stdout st)).
Proof.
  intros Hl Hs. unfold inject_source, source_part.
  erewrite bind_returned by (by apply read_lines_ok).
  destruct (source_code _) as [|l kept].
  - rewrite str_app_nil_r, set_last_content_self; done.
  - by erewrite append_seed_ok.
Qed.

Lemma inject_draft_ok (u : item) (m : message) st :
  last (chat_template st) = Some m →
  inject_draft u st
  = (Returned tt,
     State (fs st)
           (set_last_content (content m +:+ draft_part (fs st) (cdraft u))
              (chat_template st))
           (calls st)
           (events st ++ (if isfile (fs st) (cdraft u)
                          then [OpenR (cdraft u)] else []))
           (stdout st)).
Proof.
  intros Hl. unfold inject_draft, draft_part, isfile.
  unfold mbind at 1, M_bind at 1, bind at 1; simpl.
  destruct (stat (fs st) (cdraft u)) as [[d|]|] eqn:Hs.
  - erewrite bind_returned by (by apply read_lines_ok).
    destruct (Py.readlines _) as [|l ls].
    + rewrite str_app_nil_r, set_last_content_self; done.
    + by erewrite append_seed_ok.
  - rewrite str_app_nil_r, set_last_content_self, app_nil_r by done.
    by destruct st.
  - rewrite str_app_nil_r, set_last_content_self, app_nil_r by done.
    by destruct st.
Qed.

Lemma dump_prompt_ok (p : string) st :
  writable (fs st) p →
  dump_prompt json_dump p st
  = (Returned tt,
     State (<[p := File (json_dump (chat_template st))]>
              (<[p := File ""]> (fs st)))
           (chat_template st) (calls st) (events st ++ [OpenW p])
           (stdout st)).
Proof.
  intros Hw. unfold dump_prompt.
  erewrite bind_returned by (by apply open_w_ok).
  unfold mbind, M_bind, bind, close_w, set_fs, text_at; simpl.
  by rewrite lookup_insert_eq, overlay_empty.
Qed.

End Run.

Lemma isfile_writable (f : gmap string node) (p : string) :
  isfile f p = true → writable f p.
Proof.
  unfold isfile, stat, writable. destruct (decide (p = "")); [done |].
  destruct (f !! p) as [[c|]|]; done.
Qed.

(** ** Prompt-saving and the skip guard *)

(** C10: with prompt-saving the guard of line 132 lets every unit
    through, whatever is at its primary path. A unit whose primary file
    is there is skipped without prompt-saving; with prompt-saving it is
    processed: its source is read and its prompt file written, and with
    a backend the backend is called and the primary file holds
    afterwards the text extracted from the reply. *)
Theorem save_prompts_bypasses_skip
    (json_dump : list message → string)
    (chat : backend → nat → list message → option string)
    (b : backend) (u : item) (src : string) (m : message) (st : state) :
  (∀ nm, translate_item json_dump chat nm true u st
         = process_item json_dump chat nm true u st)
  ∧ (isfile (fs st) (csource u) = true →
     last (chat_template st) = Some m →
     stat (fs st) (fsource u) = Some (File src) →
     writable (fs st) (promptfile u) →
     writable (fs st) (finterface u) →
     csource u ≠ finterface u →
     (∀ conv, is_Some (chat b (calls st) conv)) →
     translate_item json_dump chat (Some b) false u st = (Returned tt, st)
     ∧ (∃ st' l,
          translate_item json_dump chat None true u st = (Returned tt, st')
          ∧ events st' = events st ++ l
          ∧ In (OpenR (fsource u)) l ∧ In (OpenW (promptfile u)) l)
     ∧ ∃ st' l conv result,
         translate_item json_dump chat (Some b) true u st
         = (Returned tt, st')
         ∧ chat b (calls st) conv = Some result
         ∧ fs st' !! csource u = Some (File (cdest_text result))
         ∧ events st' = events st ++ l
         ∧ In (OpenR (fsource u)) l ∧ In (OpenW (promptfile u)) l
         ∧ In (Chat conv) l ∧ In (OpenW (csource u)) l).
Proof.
  split.
  { intros nm. unfold translate_item, mbind, M_bind, bind; simpl.
    by rewrite orb_true_r. }
  intros Hcs Hl Hsrc Hwp Hwf Hne Hchat.
  split; [by apply translate_item_skips |].
  set (t1 := set_last_content (content m +:+ source_part src)
               (chat_template st)).
  assert (last t1 = Some (Message (role m) (content m +:+ source_part src)))
    as Hl1 by (by apply last_set_last_content).
  set (t2 := set_last_content
               (content m +:+ source_part src
                +:+ draft_part (fs st) (cdraft u)) (chat_template st)).
  assert (set_last_content
            ((content m +:+ source_part src)
             +:+ draft_part (fs st) (cdraft u)) t1 = t2) as Ht2.
  { subst t1 t2. by rewrite set_last_content_twice, str_app_assoc. }
  assert (is_Some (last t2)) as [m2 Hl2]
    by (eexists; by apply last_set_last_content).
  set (s4 := State (<[promptfile u := File (json_dump t2)]>
                      (<[promptfile u := File ""]> (fs st)))
                   t2 (calls st)
                   (((events st ++ [OpenR (fsource u)])
                     ++ (if isfile (fs st) (cdraft u)
                         then [OpenR (cdraft u)] else []))
                    ++ [OpenW (promptfile u)])
                   (stdout st
                    ++ ["Generated prompt file for LLM consumption "
                        +:+ promptfile u])).
  assert (∀ nm : option backend,
    translate_item json_dump chat nm true u st
    = ((match nm with Some b => generate chat b u | None => ret tt end);;
       set_seed (content m)) s4) as Hprefix.
  { intros nm. unfold translate_item, process_item.
    unfold mbind at 1, M_bind at 1, bind at 1; simpl.
    rewrite orb_true_r.
    erewrite bind_returned by (by unfold get_seed; rewrite Hl).
    erewrite bind_returned by (by eapply inject_source_ok).
    erewrite bind_returned by (by eapply inject_draft_ok).
    simpl. fold t1. rewrite Ht2.
    erewrite bind_returned; [done |].
    erewrite bind_returned by (by apply dump_prompt_ok). done. }
  split.
  - rewrite Hprefix. unfold mbind, M_bind, bind, set_seed, set_template.
    simpl. rewrite Hl2. do 2 eexists. split; [done |]. simpl.
    rewrite <- !app_assoc. split; [done |].
    rewrite !in_app_iff. simpl. tauto.
  - rewrite Hprefix.
    destruct (Hchat t2) as [result Hres].
    destruct (generate_writes chat b u result s4)
      as (s5 & Hg & Hc & _ & _ & Ht & He); [exact Hres | | | exact Hne |].
    + simpl. do 2 apply writable_insert. by apply isfile_writable.
    + simpl. by do 2 apply writable_insert.
    + erewrite bind_returned by exact Hg.
      unfold set_seed, set_template. rewrite Ht. simpl. rewrite Hl2.
      eexists _, _, t2, result. split; [done |]. simpl.
      split; [done |]. split; [done |]. rewrite He. simpl.
      rewrite <- !app_assoc. split; [done |].
      rewrite !in_app_iff. simpl. tauto.
Qed.

Lemma save_prompts_bypasses_skip_witness :
  ∃ st' l conv result,
    translate_item example_json (reply_with example_response)
      (Some OpenAIModel) true example_item example_state_done
    = (Returned tt, st')
    ∧ reply_with example_response OpenAIModel 0 conv = Some result
    ∧ fs st' !! "a.cpp" = Some (File (cdest_text result))
    ∧ events st' = [] ++ l
    ∧ In (OpenR "a.f") l ∧ In (OpenW "a.json") l
    ∧ In (Chat conv) l ∧ In (OpenW "a.cpp") l.
Proof.
  destruct (save_prompts_bypasses_skip example_json
              (reply_with example_response) OpenAIModel example_item
              ("C note" +:+ Py.nl +:+ "x = 1" +:+ Py.nl)
              (Message "user" "SEED") example_state_done)
    as (_ & H).
  destruct H as (_ & _ & H).
  - by vm_compute.
  - reflexivity.
  - by vm_compute.
  - split; [discriminate | by vm_compute].
  - split; [discriminate | by vm_compute].
  - discriminate.
  - intros conv. by eexists.
  - exact H.
Defined.

(** ** Lines read from a text *)

Section LineFacts.

Local Arguments String.append : simpl nomatch.

Lemma join_cons (l : string) (ls : list string) :
  Py.join (l :: ls) = l +:+ Py.join ls.
Proof.
  unfold Py.join. destruct ls as [|l' ls]; simpl; [| done].
  by rewrite str_app_nil_r.
Qed.

Lemma readlines_nil (t : string) : Py.readlines t = [] → t = "".
Proof.
  destruct t as [|c t]; [done |]. simpl.
  destruct (decide (c = Py.LF)); [done |].
  by destruct (Py.readlines t).
Qed.

(** The lines read, put together again, are the text. *)
Lemma join_readlines (t : string) : Py.join (Py.readlines t) = t.
Proof.
  induction t as [|c t IH]; [done |]. simpl.
  destruct (decide (c = Py.LF)) as [->|Hc].
  - by rewrite join_cons, IH.
  - destruct (Py.readlines t) as [|l ls] eqn:E.
    + apply readlines_nil in E as ->. done.
    + rewrite join_cons in *. simpl. by rewrite IH.
Qed.

Lemma occurs_cons (p : string) (c : ascii) (s : string) :
  occurs p (String c s) → Py.startswith (String c s) p = true ∨ occurs p s.
Proof.
  intros ([|x a] & b & Heq); simpl in Heq.
  - left. rewrite Heq. apply startswith_app.
  - right. injection Heq as _ ->. by exists a, b.
Qed.

(** An occurrence in [a +:+ b] lies in [a], lies in [b], or starts in
    [a] and ends in [b]; in the last case [b] starts with a character
    that [p] has after its first one. *)
Lemma occurs_app (c0 : ascii) (p' a b : string) :
  occurs (String c0 p') (a +:+ b) →
  occurs (String c0 p') a ∨ occurs (String c0 p') b
  ∨ ∃ c b0, b = String c b0 ∧ In c (list_ascii_of_string p').
Proof.
  intros (a' & b' & Heq).
  destruct (decide (String.length a ≤ String.length a')) as [Hle|Hgt].
  - apply app_eq_split in Heq as (m & -> & ->); [| done].
    right; left. by exists m, b'.
  - symmetry in Heq. apply app_eq_split in Heq as (m & -> & Hm); [| lia].
    rewrite str_length_app in Hgt.
    destruct m as [|x m]; [simpl in Hgt; lia |].
    simpl in Hm. injection Hm as <- Hm. clear Hgt.
    destruct (decide (String.length p' ≤ String.length m)) as [Hle|Hgt].
    + apply app_eq_split in Hm as (r & -> & _); [| done].
      left. by exists a', r.
    + symmetry in Hm. apply app_eq_split in Hm as (y & -> & ->); [| lia].
      rewrite str_length_app in Hgt.
      destruct y as [|c y]; [simpl in Hgt; lia |].
      right; right. exists c, (y +:+ b'). split; [done |].
      clear. induction m as [|x m IH]; simpl; [by left | by right].
Qed.

End LineFacts.

(** ** The draft *)

Section DraftFacts.

Local Arguments String.append : simpl nomatch.

Lemma draft_part_file (f : gmap string node) (p d : string) :
  stat f p = Some (File d) → draft_part f p = draft_text_block d.
Proof.
  intros H. unfold draft_part, draft_text_block. rewrite H.
  destruct (Py.readlines (Py.universal_newlines d)) as [|l ls] eqn:E.
  - apply readlines_nil in E. by destruct (decide _).
  - destruct (decide (Py.universal_newlines d = "")) as [Hd|Hd].
    + by rewrite Hd in E.
    + unfold draft_block. by rewrite <- E, join_readlines.
Qed.

Lemma draft_part_absent (f : gmap string node) (p : string) :
  isfile f p = false → draft_part f p = "".
Proof.
  unfold isfile, draft_part. by destruct (stat f p) as [[d|]|].
Qed.

Lemma no_draft_in_source_block (kept : list string) :
  ¬ occurs "<draft>" (Py.join kept) →
  ¬ occurs "<draft>" (source_block kept).
Proof.
  intros Hj H. unfold source_block, Py.nl in H. simpl in H.
  do 10 (apply occurs_cons in H as [H|H]; [by vm_compute in H |]).
  apply occurs_app in H as [H|[H|(c & b0 & Hb & Hin)]]; [done | |].
  - apply contains_spec in H. by vm_compute in H.
  - injection Hb as <- _. simpl in Hin.
    repeat (destruct Hin as [Hin|Hin]; [discriminate Hin |]). done.
Qed.

Lemma no_draft_with_source (seed src : string) :
  ¬ occurs "<draft>" seed →
  ¬ occurs "<draft>"
      (Py.join (source_code (Py.readlines (Py.universal_newlines src)))) →
  ¬ occurs "<draft>" (seed +:+ source_part src).
Proof.
  intros Hs Hj. unfold source_part.
  destruct (source_code _) as [|l kept] eqn:E.
  - by rewrite str_app_nil_r.
  - intros [H|[H|(c & b0 & Hb & Hin)]]%occurs_app; [done | |].
    + by apply no_draft_in_source_block in H.
    + unfold source_block, Py.nl in Hb. simpl in Hb.
      injection Hb as <- _. simpl in Hin.
      repeat (destruct Hin as [Hin|Hin]; [discriminate Hin |]). done.
Qed.

End DraftFacts.

(** C9, as the claim has it, fails twice: a draft file that is there and
    empty gives no draft block; and without any draft file the prompt
    holds the draft tag when a source line does, the seed holding none. *)
Lemma draft_block_not_as_claimed :
  let built f :=
    seed_content
      (chat_template
         (snd ((inject_source example_item;; inject_draft example_item)
                 (State f example_template 0 [] [])))) in
  (isfile store_empty_draft "a.draft" = true
   ∧ ∃ c, built store_empty_draft = Some c ∧ ¬ occurs "<draft>" c)
  ∧ (isfile store_tag_in_source "a.draft" = false
     ∧ Forall (fun m => ¬ occurs "<draft>" (content m)) example_template
     ∧ ∃ c, built store_tag_in_source = Some c ∧ occurs "<draft>" c).
Proof.
  split; (split; [by vm_compute |]).
  - eexists. split; [by vm_compute |].
    rewrite <- contains_spec. by vm_compute.
  - split.
    + repeat constructor; rewrite <- contains_spec; by vm_compute.
    + eexists. split; [by vm_compute |].
      rewrite <- contains_spec. by vm_compute.
Qed.

(** C9, as the code has it: with no file at the draft path the draft
    step does nothing at all; with a file there whose text is not empty,
    the text is appended whole inside a draft block, right after what the
    source step appended, and an empty file appends nothing; and with no
    file at the draft path the seed built holds no draft tag when neither
    the seed nor the source lines kept hold one. *)
Theorem draft_injection (u : item) (m : message) (st : state) :
  last (chat_template st) = Some m →
  (isfile (fs st) (cdraft u) = false →
   inject_draft u st = (Returned tt, st))
  ∧ (∀ d, stat (fs st) (cdraft u) = Some (File d) →
       ∃ st', inject_draft u st = (Returned tt, st')
              ∧ seed_content (chat_template st')
                = Some (content m +:+ draft_text_block d))
  ∧ (∀ src, stat (fs st) (fsource u) = Some (File src) →
       ∃ st' c,
         (inject_source u;; inject_draft u) st = (Returned tt, st')
         ∧ seed_content (chat_template st') = Some c
         ∧ c = content m +:+ source_part src
               +:+ draft_part (fs st) (cdraft u)
         ∧ (isfile (fs st) (cdraft u) = false →
            ¬ occurs "<draft>" (content m) →
            ¬ occurs "<draft>"
                (Py.join (source_code
                            (Py.readlines (Py.universal_newlines src)))) →
            ¬ occurs "<draft>" c)).
Proof.
  intros Hl. split; [| split].
  - intros Hf. rewrite (inject_draft_ok u m) by done.
    rewrite draft_part_absent, Hf, str_app_nil_r, app_nil_r by done.
    rewrite set_last_content_self by done. by destruct st.
  - intros d Hd. eexists. split; [by apply inject_draft_ok |].
    unfold seed_content. simpl.
    erewrite last_set_last_content by done. simpl.
    by rewrite (draft_part_file _ _ d).
  - intros src Hsrc. eexists _, _.
    erewrite bind_returned by (by eapply inject_source_ok).
    split; [eapply inject_draft_ok; by apply last_set_last_content |].
    unfold seed_content. simpl.
    rewrite set_last_content_twice.
    erewrite last_set_last_content by done. simpl.
    split; [done |]. split; [by rewrite str_app_assoc |].
    intros Hf Hs Hj. rewrite draft_part_absent, str_app_nil_r by done.
    by apply no_draft_with_source.
Qed.

Lemma draft_injection_witness :
  inject_draft example_item example_state = (Returned tt, example_state).
Proof.
  destruct (draft_injection example_item (Message "user" "SEED")
              example_state) as (H & _); [reflexivity |].
  apply H. by vm_compute.
Defined.

(** ** The inspection prompt *)

Lemma inspect_file_ok (path c acc : string) st :
  chat_template st = [Message "user" acc] →
  stat (fs st) path = Some (File c) →
  inspect_file path st
  = (Returned tt,
     State (fs st) [Message "user" (acc +:+ file_text_block path c)]
           (calls st) (events st ++ [OpenR path]) (stdout st)).
Proof.
  intros Ht Hs. unfold inspect_file, file_text_block.
  erewrite bind_returned by (by apply read_lines_ok).
  destruct (Py.readlines (Py.universal_newlines c)) as [|l ls] eqn:E.
  - apply readlines_nil in E. destruct (decide _); [| done].
    by rewrite str_app_nil_r, <- Ht.
  - destruct (decide (Py.universal_newlines c = "")) as [Hd|Hd];
      [by rewrite Hd in E |].
    erewrite append_seed_ok by (by simpl; rewrite Ht).
    simpl. rewrite Ht. simpl. unfold file_block.
    by rewrite <- E, join_readlines.
Qed.

Lemma inspect_files_ok (files : list string) (acc : string) st :
  chat_template st = [Message "user" acc] →
  Forall (fun p => isfile (fs st) p = true) files →
  for_each files inspect_file st
  = (Returned tt,
     State (fs st)
           [Message "user" (acc +:+ inspect_blocks (fs st) files)]
           (calls st) (events st ++ map OpenR files) (stdout st)).
Proof.
  revert acc st; induction files as [|p files IH]; intros acc st Ht Hall;
    simpl.
  - rewrite str_app_nil_r, app_nil_r, <- Ht. by destruct st.
  - inversion Hall as [|? ? Hp Hrest]; subst. unfold isfile in Hp.
    destruct (stat (fs st) p) as [[c|]|] eqn:Hs; try done.
    erewrite bind_returned by (by apply inspect_file_ok).
    rewrite (IH (acc +:+ file_text_block p c)) by done. simpl.
    by rewrite str_app_assoc, <- app_assoc.
Qed.

(** C8, as the claim has it, fails: the block of a file has a line feed
    after its opening tag, so the prompt of the example does not hold the
    block the claim spells out; and a file that is empty has no block. *)
Lemma inspection_block_not_as_claimed :
  let prompt f files :=
    seed_content
      (chat_template
         (snd (inspect_prompt files "List all subroutines" (start f)))) in
  (∃ c, prompt inspect_store ["a.f"; "b.f"] = Some c
        ∧ ¬ occurs ("<a.f>sub a" +:+ Py.nl +:+ "end" +:+ Py.nl +:+ "</a.f>")
              c)
  ∧ (isfile inspect_store_empty_file "e.f" = true
     ∧ ∃ c, prompt inspect_store_empty_file ["e.f"] = Some c
            ∧ ¬ occurs "<e.f>" c).
Proof.
  split; [| split; [by vm_compute |]];
    (eexists; split; [by vm_compute |]);
    rewrite <- contains_spec; by vm_compute.
Qed.

(** C8, as the code has it: the inspection prompt is one user message
    holding the preamble, then for every file whose text is not empty,
    in the order of the list, a line feed, the opening tag of the literal
    path, a line feed, the text, the closing tag and a line feed, and
    last a line feed and the query between its tags, each on a line of
    its own; a file that is empty adds nothing. *)
Theorem inspection_prompt
    (json_dump : list message → string)
    (chat : backend → nat → list message → option string)
    (filelist : list string) (query_prompt : string) (st : state) :
  Forall (fun p => isfile (fs st) p = true) filelist →
  ∃ st',
    inspect_prompt filelist query_prompt st = (Returned tt, st')
    ∧ prompt_inspect json_dump chat filelist query_prompt None false st
      = (Returned tt, st')
    ∧ chat_template st'
      = [Message "user"
           (preamble +:+ inspect_blocks (fs st) filelist
            +:+ Py.nl +:+ "<query>" +:+ Py.nl +:+ query_prompt +:+ Py.nl
            +:+ "</query>" +:+ Py.nl)]
    ∧ fs st' = fs st
    ∧ events st' = events st ++ map OpenR filelist.
Proof.
  intros Hall.
  assert (∃ st',
    inspect_prompt filelist query_prompt st = (Returned tt, st')
    ∧ chat_template st'
      = [Message "user"
           (preamble +:+ inspect_blocks (fs st) filelist
            +:+ query_block query_prompt)]
    ∧ fs st' = fs st
    ∧ events st' = events st ++ map OpenR filelist)
    as (st' & Hrun & Ht & Hf & He).
  { unfold inspect_prompt.
    erewrite bind_returned by done.
    erewrite bind_returned by (by eapply append_seed_ok).
    erewrite bind_returned by (by apply inspect_files_ok).
    erewrite append_seed_ok by done. simpl. eexists.
    split; [done |]. simpl. by rewrite str_app_assoc. }
  exists st'. split; [done |]. split; [| done].
  unfold prompt_inspect, select_model.
  erewrite bind_returned by done.
  erewrite bind_returned by done.
  erewrite bind_returned by done.
  by erewrite bind_returned by done.
Qed.

Lemma inspection_prompt_witness :
  ∃ st',
    inspect_prompt ["a.f"; "b.f"] "List all subroutines"
      (start inspect_store) = (Returned tt, st')
    ∧ chat_template st'
      = [Message "user"
           (preamble
            +:+ Py.nl +:+ "<a.f>" +:+ Py.nl +:+ "sub a" +:+ Py.nl +:+ "end"
            +:+ Py.nl +:+ "</a.f>" +:+ Py.nl
            +:+ Py.nl +:+ "<b.f>" +:+ Py.nl +:+ "sub b" +:+ Py.nl +:+ "end"
            +:+ Py.nl +:+ "</b.f>" +:+ Py.nl
            +:+ Py.nl +:+ "<query>" +:+ Py.nl +:+ "List all subroutines"
            +:+ Py.nl +:+ "</query>" +:+ Py.nl)].
Proof.
  destruct (inspection_prompt example_json failing_backend
              ["a.f"; "b.f"] "List all subroutines" (start inspect_store))
    as (st' & Hrun & _ & Ht & _).
  - repeat constructor.
  - exists st'. split; [exact Hrun |]. rewrite Ht. by vm_compute.
Defined.

(** * Further properties *)

(** ** The filter and white space *)

Section StripFacts.

Local Arguments String.append : simpl nomatch.

Lemma rev_app_spec (s acc : string) :
  String.rev_app s acc = String.rev s +:+ acc.
Proof.
  unfold String.rev. revert acc; induction s as [|c s IH]; intros acc;
    simpl; [done |].
  rewrite IH, (IH (String c "")). by rewrite str_app_assoc.
Qed.

Lemma rev_cons (c : ascii) (s : string) :
  String.rev (String c s) = String.rev s +:+ String c "".
Proof. unfold String.rev at 1. simpl. apply rev_app_spec. Qed.

Lemma rev_snoc (c : ascii) (s : string) :
  String.rev (s +:+ String c "") = String c (String.rev s).
Proof.
  induction s as [|d s IH]; [done |].
  simpl. by rewrite !rev_cons, IH.
Qed.

Lemma lstrip_blank (ws s : string) :
  blank ws = true → Py.lstrip (ws +:+ s) = Py.lstrip s.
Proof.
  induction ws as [|c ws IH]; simpl; [done |].
  intros [Hc Hws]%andb_true_iff. rewrite Hc. by apply IH.
Qed.

Lemma lstrip_snoc (t : string) (c : ascii) :
  Py.isspace c = false →
  Py.lstrip (t +:+ String c "") = Py.lstrip t +:+ String c "".
Proof.
  intros Hc. induction t as [|d t IH]; simpl; [by rewrite Hc |].
  by destruct (Py.isspace d).
Qed.

Lemma rstrip_cons (c : ascii) (s : string) :
  Py.isspace c = false → Py.rstrip (String c s) = String c (Py.rstrip s).
Proof.
  intros Hc. unfold Py.rstrip.
  by rewrite rev_cons, lstrip_snoc, rev_snoc.
Qed.

Lemma lstrip_head (s : string) :
  Py.lstrip s = ""
  ∨ ∃ c r, Py.lstrip s = String c r ∧ Py.isspace c = false.
Proof.
  induction s as [|c s IH]; simpl; [by left |].
  destruct (Py.isspace c) eqn:Hc; [done |]. right. by exists c, s.
Qed.

Lemma lstrip_blank_all (s : string) : blank s = true → Py.lstrip s = "".
Proof.
  intros H. rewrite <- (str_app_nil_r s). by rewrite lstrip_blank.
Qed.

Lemma lower_char_marker (c : ascii) :
  (Py.lower_char c = "c"%char ↔ c = "c"%char ∨ c = "C"%char)
  ∧ (Py.lower_char c = "!"%char ↔ c = "!"%char).
Proof.
  destruct c as [[] [] [] [] [] [] [] []]; vm_compute;
    intuition congruence.
Qed.

End StripFacts.

(** The filter looks at the first character of the line that is not
    white space: a line is a comment iff that character is c, C or the
    exclamation mark and the line, trimmed and lower-cased, does not
    start with "complex". *)
Theorem comment_first_char (line : string) :
  is_comment line = true
  ↔ ∃ c rest,
      Py.lstrip line = String c rest
      ∧ (c = "c" ∨ c = "C" ∨ c = "!")%char
      ∧ Py.startswith (Py.lower (Py.strip line)) "complex" = false.
Proof.
  unfold is_comment, Py.strip.
  destruct (lstrip_head line) as [E|(c & r & E & Hc)]; rewrite E.
  - split; [done |]. by intros (c & rest & H & _).
  - rewrite rstrip_cons by done.
    destruct (lower_char_marker c) as [Hc1 Hc2].
    rewrite andb_true_iff, negb_true_iff.
    unfold Py.startswith_any. simpl existsb. simpl Py.lower.
    set (cx := Py.startswith _ "complex").
    destruct (decide ("c"%char = Py.lower_char c)) as [H1|H1];
      destruct (decide ("!"%char = Py.lower_char c)) as [H2|H2];
      simpl; rewrite ?orb_true_r; split.
    all: try (intros [_ Hx]; exists c, r; split; [done |]; split; [| done];
              symmetry in H1 || symmetry in H2; tauto).
    all: try (intros (c0 & rest & [= <- <-] & _ & Hx); by split).
    all: try (by intros [? _]).
    intros (c0 & rest & [= <- <-] & Hm & _). exfalso.
    destruct Hm as [Hm|[Hm|Hm]].
    + apply H1. symmetry. apply Hc1. by left.
    + apply H1. symmetry. apply Hc1. by right.
    + apply H2. symmetry. by apply Hc2.
Qed.

Lemma comment_first_char_witness :
  is_comment ("      CALL solve(x)" +:+ Py.nl) = true.
Proof.
  apply (comment_first_char ("      CALL solve(x)" +:+ Py.nl)).
  exists "C"%char, ("ALL solve(x)" +:+ Py.nl).
  split; [reflexivity |]. split; [by right; left | reflexivity].
Defined.

(** White space before the text of a line does not change what the
    filter answers, and a line of white space only is kept. *)
Theorem comment_ignores_indentation (ws line : string) :
  blank ws = true →
  is_comment (ws +:+ line) = is_comment line ∧ is_comment ws = false.
Proof.
  intros H. unfold is_comment, Py.strip.
  rewrite (lstrip_blank ws line), (lstrip_blank_all ws) by done.
  by split.
Qed.

Lemma comment_ignores_indentation_witness :
  is_comment ("    " +:+ "x = 1") = is_comment "x = 1"
  ∧ is_comment "    " = false.
Proof. apply (comment_ignores_indentation "    " "x = 1"). reflexivity. Defined.

Lemma filter_sublist {A} (f : A → bool) (l : list A) :
  sublist (List.filter f l) l.
Proof.
  induction l as [|x l IH]; simpl; [constructor |].
  destruct (f x); by constructor.
Qed.

Lemma filter_twice {A} (f : A → bool) (l : list A) :
  List.filter f (List.filter f l) = List.filter f l.
Proof.
  induction l as [|x l IH]; simpl; [done |].
  destruct (f x) eqn:E; simpl; [| done]. by rewrite E, IH.
Qed.

(** The lines kept are a subsequence of the lines read; filtering two
    runs of lines one after the other keeps what filtering them together
    keeps; and filtering what was kept drops nothing more. *)
Theorem source_code_compose (l1 l2 : list string) :
  sublist (source_code l1) l1
  ∧ source_code (l1 ++ l2) = source_code l1 ++ source_code l2
  ∧ source_code (source_code l1) = source_code l1.
Proof.
  rewrite !source_code_filter. split; [apply filter_sublist |].
  split; [apply List.filter_app | apply filter_twice].
Qed.

(** ** Replies that follow the tag convention *)

Section WrapFacts.

Local Arguments String.append : simpl nomatch.

(** An occurrence of a pattern that starts inside [pre] lies in [pre],
    or runs into what follows, which then starts with a character the
    pattern has after its first one. *)
Lemma occurs_before (c0 : ascii) (p' a b pre u : string) :
  a +:+ String c0 p' +:+ b = pre +:+ u →
  String.length a < String.length pre →
  occurs (String c0 p') pre
  ∨ ∃ c u0, u = String c u0 ∧ In c (list_ascii_of_string p').
Proof.
  intros Heq Hlt.
  apply app_eq_split in Heq as (m & -> & Hm); [| lia].
  rewrite str_length_app in Hlt.
  destruct m as [|x m]; [simpl in Hlt; lia |].
  simpl in Hm. injection Hm as <- Hm. clear Hlt.
  destruct (decide (String.length p' ≤ String.length m)) as [Hle|Hgt].
  - apply app_eq_split in Hm as (r & -> & _); [| done].
    left. by exists a, r.
  - symmetry in Hm. apply app_eq_split in Hm as (y & -> & ->); [| lia].
    rewrite str_length_app in Hgt.
    destruct y as [|c y]; [simpl in Hgt; lia |].
    right. exists c, (y +:+ b). split; [done |].
    clear. induction m as [|x m IH]; simpl; [by left | by right].
Qed.

Lemma wrapped_first_span (o' c' pre body post : string) :
  ¬ In "<"%char (list_ascii_of_string o') →
  ¬ In "<"%char (list_ascii_of_string c') →
  ¬ occurs (String "<" o') pre →
  ¬ occurs (String "<" c') body →
  first_span (String "<" o') (String "<" c')
    (pre +:+ String "<" o' +:+ body +:+ String "<" c' +:+ post)
    pre body post.
Proof.
  intros Ho Hc Hpre Hbody. split; [done |]. split.
  - intros a b Heq.
    destruct (decide (String.length pre ≤ String.length a)); [done |].
    symmetry in Heq. apply occurs_before in Heq; [| lia].
    destruct Heq as [H|(c & u0 & [= <- _] & Hin)]; done.
  - intros a b Heq Hle.
    destruct (decide (String.length pre + String.length (String "<" o')
                      + String.length body ≤ String.length a));
      [done |].
    rewrite <- (str_app_assoc pre) in Heq.
    apply app_eq_split in Heq as (m & -> & Hm);
      [| rewrite str_length_app; lia].
    rewrite !str_length_app in *. symmetry in Hm.
    apply occurs_before in Hm; [| lia].
    destruct Hm as [H|(c & u0 & [= <- _] & Hin)]; done.
Qed.

End WrapFacts.

(** A reply that wraps a text in the primary tags gives that text back,
    when the opening tag does not occur before it and the closing tag
    does not occur in it; and the same for the secondary tags. The text
    around the span, and the order of the two spans, do not matter. *)
Theorem wrapped_reply_extracted (pre body post : string) :
  (¬ occurs "<csource>" pre → ¬ occurs "</csource>" body →
   cdest_text (pre +:+ "<csource>" +:+ body +:+ "</csource>" +:+ post)
   = body)
  ∧ (¬ occurs "<fsource>" pre → ¬ occurs "</fsource>" body →
     fdest_written
       (pre +:+ "<fsource>" +:+ body +:+ "</fsource>" +:+ post)
     = Some body).
Proof.
  assert (∀ tag,
    ¬ In "<"%char (list_ascii_of_string (tag +:+ ">")) →
    ¬ occurs (Re.open_tag tag) pre → ¬ occurs (Re.close_tag tag) body →
    Re.search_tag tag
      (pre +:+ Re.open_tag tag +:+ body +:+ Re.close_tag tag +:+ post)
    = Some body) as H.
  { intros tag Hin Hpre Hbody. unfold Re.search_tag.
    eapply search_first.
    apply (wrapped_first_span (tag +:+ ">") (String "/" (tag +:+ ">")));
      [done | | done | done].
    intros [Hs|Hs]; [discriminate Hs | done]. }
  split; intros Hpre Hbody.
  - specialize (H "csource").
    change (Re.open_tag "csource") with "<csource>" in H.
    change (Re.close_tag "csource") with "</csource>" in H.
    unfold cdest_text. rewrite H; [done | | done | done].
    simpl. intuition discriminate.
  - specialize (H "fsource").
    change (Re.open_tag "fsource") with "<fsource>" in H.
    change (Re.close_tag "fsource") with "</fsource>" in H.
    unfold fdest_written. rewrite H; [done | | done | done].
    simpl. intuition discriminate.
Qed.

Lemma wrapped_reply_extracted_witness :
  cdest_text ("Here it is: " +:+ "<csource>" +:+ "int x;" +:+ "</csource>"
              +:+ " done")
  = "int x;".
Proof.
  destruct (wrapped_reply_extracted "Here it is: " "int x;" " done")
    as [H _].
  apply H; rewrite <- contains_spec; by vm_compute.
Defined.

(** The secondary artifact: the text handed to the secondary stream is
    the interior of the first secondary span of the reply, and once the
    backend has replied and both files are open, the file at the
    secondary path holds it. *)
Theorem secondary_extraction
    (chat : backend → nat → list message → option string)
    (b : backend) (u : item) (result body : string) (st : state) :
  (fdest_written result = Some body
   ↔ ∃ pre post, first_span "<fsource>" "</fsource>" result pre body post)
  ∧ (chat b (calls st) (chat_template st) = Some result →
     writable (fs st) (csource u) →
     writable (fs st) (finterface u) →
     csource u ≠ finterface u →
     (∃ pre post,
        first_span "<fsource>" "</fsource>" result pre body post) →
     ∃ st', generate chat b u st = (Returned tt, st')
            ∧ fs st' !! finterface u = Some (File body)).
Proof.
  split; [apply search_Some_iff |].
  intros Hc Hw1 Hw2 Hne (pre & post & Hsp).
  destruct (generate_writes chat b u result st Hc Hw1 Hw2 Hne)
    as (st' & Hg & _ & Hfi & _).
  exists st'. split; [done |]. rewrite Hfi. unfold fdest_text, fdest_written.
  apply search_first in Hsp.
  change (Re.search_tag "fsource" result)
    with (Re.search "<fsource>" "</fsource>" result).
  by rewrite Hsp.
Qed.

Lemma secondary_extraction_witness :
  ∃ st',
    generate (reply_with example_response) OpenAIModel example_item
      example_state = (Returned tt, st')
    ∧ fs st' !! "a_fi.F90" = Some (File "IFACE").
Proof.
  destruct (secondary_extraction (reply_with example_response) OpenAIModel
              example_item example_response "IFACE" example_state)
    as [Hiff H].
  apply H.
  - reflexivity.
  - split; [discriminate | by vm_compute].
  - split; [discriminate | by vm_compute].
  - discriminate.
  - apply Hiff. reflexivity.
Defined.

(** Both artifacts are pieces of the reply: the text written as primary
    artifact, and the text written as secondary artifact when there is
    one, occur in the reply as they are, and neither is longer than it. *)
Theorem artifacts_occur_in_reply (result : string) :
  occurs (cdest_text result) result
  ∧ String.length (cdest_text result) ≤ String.length result
  ∧ ∀ g, fdest_written result = Some g →
         occurs g result ∧ String.length g ≤ String.length result.
Proof.
  assert (∀ o c g, Re.search o c result = Some g →
            occurs g result ∧ String.length g ≤ String.length result) as H.
  { intros o c g (pre & post & Hsp & _)%search_Some. unfold span in Hsp.
    split.
    - exists (pre +:+ o), (c +:+ post). by rewrite Hsp, !str_app_assoc.
    - rewrite Hsp, !str_length_app. lia. }
  unfold cdest_text, fdest_written, Re.search_tag.
  destruct (Re.search _ _ result) as [g|] eqn:E.
  - destruct (H _ _ _ E). split; [done |]. split; [done |]. apply H.
  - split; [exists "", ""; by rewrite str_app_nil_r |].
    split; [done |]. apply H.
Qed.

(** ** The paths a run leaves alone *)

#[export] Instance untouched_preorder (W : string → Prop) :
  PreOrder (untouched W).
Proof.
  split.
  - by intros st p _.
  - intros s1 s2 s3 H12 H23 p Hp. by rewrite H23, H12.
Qed.

Lemma keeps_bind (R : state → state → Prop) `{!PreOrder R} {A B}
    (m : M A) (k : A → M B) :
  keeps R m → (∀ a, keeps R (k a)) → keeps R (m ≫= k).
Proof.
  intros Hm Hk st r st'. unfold mbind, M_bind, bind.
  destruct (m st) as [[a|e] st1] eqn:E.
  - intros H. etrans; [by eapply Hm | by eapply Hk].
  - intros [= <- <-]. by eapply Hm.
Qed.

Lemma keeps_for_each (R : state → state → Prop) `{!PreOrder R} {A}
    (body : A → M unit) (l : list A) :
  (∀ x, In x l → keeps R (body x)) → keeps R (for_each l body).
Proof.
  induction l as [|x l IH]; intros H; simpl.
  - intros st r st' [= <- <-]. reflexivity.
  - apply keeps_bind; [done | apply H; by left |].
    intros _. apply IH. intros y Hy. apply H. by right.
Qed.

(** A step that leaves the store as it is. *)
Lemma keeps_same_store (W : string → Prop) {A} (m : M A) :
  (∀ st r st', m st = (r, st') → fs st' = fs st) →
  keeps (untouched W) m.
Proof. intros H st r st' Hm p _. by rewrite (H _ _ _ Hm). Qed.

Section Untouched.

Variable json_dump : list message → string.
Variable chat : backend → nat → list message → option string.
Variable W : string → Prop.

Lemma untouched_ret {A} (a : A) : keeps (untouched W) (ret a).
Proof. apply keeps_same_store. by intros st r st' [= <- <-]. Qed.

Lemma untouched_get_state : keeps (untouched W) get_state.
Proof. apply keeps_same_store. by intros st r st' [= <- <-]. Qed.

Lemma untouched_print (s : string) : keeps (untouched W) (print s).
Proof. apply keeps_same_store. by intros st r st' [= <- <-]. Qed.

Lemma untouched_get_seed : keeps (untouched W) get_seed.
Proof.
  apply keeps_same_store. intros st r st'. unfold get_seed.
  by destruct (last (chat_template st)); intros [= <- <-].
Qed.

Lemma untouched_set_seed (v : string) : keeps (untouched W) (set_seed v).
Proof.
  apply keeps_same_store. intros st r st'. unfold set_seed, set_template.
  by destruct (last (chat_template st)); intros [= <- <-].
Qed.

Lemma untouched_append_seed (v : string) :
  keeps (untouched W) (append_seed v).
Proof.
  apply keeps_bind; [apply _ | apply untouched_get_seed |].
  intros a. apply untouched_set_seed.
Qed.

Lemma untouched_read_lines (p : string) :
  keeps (untouched W) (read_lines p).
Proof.
  apply keeps_same_store. intros st r st'.
  unfold read_lines, open_r, mbind, M_bind, bind, emit.
  by destruct (stat (fs st) p) as [[c|]|]; simpl; intros [= <- <-].
Qed.

Lemma untouched_call_chat (b : backend) :
  keeps (untouched W) (call_chat chat b).
Proof.
  apply keeps_same_store. intros st r st'. unfold call_chat.
  by destruct (chat b (calls st) (chat_template st)); intros [= <- <-].
Qed.

Lemma untouched_insert (p c : string) (l : list event) st :
  W p →
  untouched W st
    (State (<[p := File c]> (fs st)) (chat_template st) (calls st)
           l (stdout st)).
Proof.
  intros Hp q Hq. simpl. apply lookup_insert_ne. by intros ->.
Qed.

Lemma untouched_open_w (p : string) : W p → keeps (untouched W) (open_w p).
Proof.
  intros Hp st r st'. unfold open_w.
  destruct (stat (fs st) p) as [[c|]|];
    [| intros [= <- <-]; reflexivity |];
    (destruct (decide (p = "")); [intros [= <- <-]; reflexivity |]);
    unfold mbind, M_bind, bind, emit, set_fs; simpl;
    intros [= <- <-]; by apply untouched_insert.
Qed.

Lemma untouched_close_w (p text : string) :
  W p → keeps (untouched W) (close_w p text).
Proof.
  intros Hp st r st' [= <- <-]. unfold set_fs. by apply untouched_insert.
Qed.

Lemma untouched_dump_prompt (p : string) :
  W p → keeps (untouched W) (dump_prompt json_dump p).
Proof.
  intros Hp. unfold dump_prompt.
  apply keeps_bind; [apply _ | by apply untouched_open_w |]. intros _.
  apply keeps_bind; [apply _ | apply untouched_get_state |]. intros st.
  by apply untouched_close_w.
Qed.

Lemma untouched_generate (b : backend) (u : item) :
  W (csource u) → W (finterface u) →
  keeps (untouched W) (generate chat b u).
Proof.
  intros Hc Hf. unfold generate.
  apply keeps_bind; [apply _ | apply untouched_call_chat |]. intros result.
  apply keeps_bind; [apply _ | by apply untouched_open_w |]. intros _.
  apply keeps_bind; [apply _ | by apply untouched_open_w |]. intros _.
  apply keeps_bind; [apply _ | by apply untouched_close_w |]. intros _.
  by apply untouched_close_w.
Qed.

Lemma untouched_inject_source (u : item) :
  keeps (untouched W) (inject_source u).
Proof.
  unfold inject_source.
  apply keeps_bind; [apply _ | apply untouched_read_lines |]. intros lines.
  destruct (source_code lines);
    [apply untouched_ret | apply untouched_append_seed].
Qed.

Lemma untouched_inject_draft (u : item) :
  keeps (untouched W) (inject_draft u).
Proof.
  unfold inject_draft.
  apply keeps_bind; [apply _ | apply untouched_get_state |]. intros st.
  destruct (isfile (fs st) (cdraft u)); [| apply untouched_ret].
  apply keeps_bind; [apply _ | apply untouched_read_lines |]. intros lines.
  destruct lines; [apply untouched_ret | apply untouched_append_seed].
Qed.

Lemma untouched_translate_item (nm : option backend) (sp : bool)
    (u : item) :
  (∀ p, In p (outputs (bool_decide (is_Some nm)) sp u) → W p) →
  keeps (untouched W) (translate_item json_dump chat nm sp u).
Proof.
  intros HW. unfold translate_item, process_item.
  apply keeps_bind; [apply _ | apply untouched_get_state |]. intros st.
  destruct (negb (isfile (fs st) (csource u)) || sp); [| apply untouched_ret].
  apply keeps_bind; [apply _ | apply untouched_get_seed |]. intros cached.
  apply keeps_bind; [apply _ | apply untouched_inject_source |]. intros _.
  apply keeps_bind; [apply _ | apply untouched_inject_draft |]. intros _.
  apply keeps_bind; [apply _ | |]; [| intros _; apply keeps_bind;
    [apply _ | | intros _; apply untouched_set_seed]].
  - destruct sp; [| apply untouched_ret].
    apply keeps_bind; [apply _ | | intros _; apply untouched_print].
    apply untouched_dump_prompt, HW. simpl. by left.
  - destruct nm as [b|]; [| apply untouched_ret].
    apply untouched_generate; apply HW; unfold outputs;
      rewrite in_app_iff; right; simpl; tauto.
Qed.

End Untouched.

Lemma bind_inv {A B} (m : M A) (k : A → M B) st r st' :
  (m ≫= k) st = (r, st') →
  (∃ a s1, m st = (Returned a, s1) ∧ k a s1 = (r, st'))
  ∨ (∃ e, m st = (Raised e, st') ∧ r = Raised e).
Proof.
  unfold mbind, M_bind, bind. destruct (m st) as [[a|e] s1].
  - intros H. left. by exists a, s1.
  - intros [= <- <-]. right. by exists e.
Qed.

Lemma select_model_outcome (banner : string) (model : option string)
    st r st' :
  select_model banner model st = (r, st') →
  fs st' = fs st ∧ calls st' = calls st ∧ events st' = events st
  ∧ chat_template st' = chat_template st
  ∧ ∀ nm, r = Returned nm → bool_decide (is_Some nm) = truthy model.
Proof.
  assert (∀ (x : option backend) (b : bool) (s : state),
            bool_decide (is_Some x) = b →
            (Returned x, s) = (r, st') →
            (∀ nm, r = Returned nm → bool_decide (is_Some nm) = b)
            ∧ s = st') as Hret.
  { intros x b s Hx [= <- <-]. split; [| done]. by intros nm [= <-]. }
  unfold select_model, truthy. destruct model as [m|].
  2: { intros H. by apply (Hret None false) in H as [? <-]. }
  destruct (decide (m = "")).
  { intros H. by apply (Hret None false) in H as [? <-]. }
  unfold mbind, M_bind, bind; simpl.
  destruct (path_exists (fs st) m).
  { intros H. by apply (Hret _ true) in H as [? <-]. }
  destruct (decide (Py.lower m = "openai")).
  { intros H. by apply (Hret _ true) in H as [? <-]. }
  by intros [= <- <-].
Qed.

Lemma load_template_outcome
    (toml_chat : string → option (list message)) (seed : string)
    st r st' :
  load_template toml_chat seed st = (r, st') →
  fs st' = fs st ∧ calls st' = calls st.
Proof.
  unfold load_template, open_r, mbind, M_bind, bind, emit.
  destruct (stat (fs st) seed) as [[c|]|]; simpl;
    [| by intros [= <- <-] ..].
  by destruct (toml_chat _); intros [= <- <-].
Qed.

(** The state in which the loop of [prompt_translate] starts, when the
    run gets that far. *)
Lemma prompt_translate_inv
    (toml_chat : string → option (list message))
    (json_dump : list message → string)
    (chat : backend → nat → list message → option string)
    (mp : mapping) (seed : string) (model : option string) (sp : bool)
    st r st' :
  prompt_translate toml_chat json_dump chat mp seed model sp st = (r, st') →
  (fs st' = fs st ∧ calls st' = calls st ∧ ∃ e, r = Raised e)
  ∨ ∃ nm s1,
      bool_decide (is_Some nm) = truthy model
      ∧ fs s1 = fs st ∧ calls s1 = calls st
      ∧ for_each (items mp) (translate_item json_dump chat nm sp) s1
        = (r, st').
Proof.
  unfold prompt_translate.
  intros [(nm & s1 & Hsel & H)|(e & Hsel & ->)]%bind_inv.
  2: { apply select_model_outcome in Hsel as (? & ? & _). left. eauto. }
  apply select_model_outcome in Hsel as (Hf1 & Hc1 & _ & _ & Hnm).
  specialize (Hnm nm eq_refl).
  assert (∀ s r' s', (if sp then print "Saving custom prompts per file"
                      else ret tt) s = (r', s') →
            r' = Returned tt ∧ fs s' = fs s ∧ calls s' = calls s) as Hpr
    by (by intros s r' s'; destruct sp; intros [= <- <-]).
  apply bind_inv in H as [([] & s2 & H2 & H)|(e & H2 & ->)];
    [| by apply Hpr in H2 as [? _]].
  apply Hpr in H2 as (_ & Hf2 & Hc2).
  apply bind_inv in H as [(t & s3 & H3 & H)|(e & H3 & ->)].
  2: { apply load_template_outcome in H3 as [? ?]. left.
       split; [congruence |]. split; [congruence | eauto]. }
  apply load_template_outcome in H3 as [Hf3 Hc3].
  apply bind_inv in H as [([] & s4 & [= <-] & H)|(e & [=] & _)].
  right. exists nm, (State (fs s3) t (calls s3) (events s3) (stdout s3)).
  split; [done |]. simpl. split; [congruence |]. split; [congruence | done].
Qed.

(** Whatever a run of [prompt_translate] does, returning or raising, a
    path that is not the prompt file (with prompt-saving), the primary
    file or the secondary file (with a backend) of one of its units names
    afterwards what it named before; and a run without backend and
    without prompt-saving leaves the whole store as it was. *)
Theorem outputs_only
    (toml_chat : string → option (list message))
    (json_dump : list message → string)
    (chat : backend → nat → list message → option string)
    (mp : mapping) (seed_prompt : string) (model : option string)
    (save_prompts : bool) (st : state) :
  let run :=
    prompt_translate toml_chat json_dump chat mp seed_prompt model
      save_prompts st in
  (∀ p,
     (∀ u, In u (items mp) →
           ¬ In p (outputs (truthy model) save_prompts u)) →
     fs (snd run) !! p = fs st !! p)
  ∧ (truthy model = false → save_prompts = false → fs (snd run) = fs st).
Proof.
  intros run.
  assert (∀ p,
     (∀ u, In u (items mp) →
           ¬ In p (outputs (truthy model) save_prompts u)) →
     fs (snd run) !! p = fs st !! p) as H.
  { intros p Hp. destruct run as [r st'] eqn:Hrun. simpl.
    apply prompt_translate_inv in Hrun
      as [(-> & _)|(nm & s1 & Hnm & <- & _ & Hloop)]; [done |].
    eapply (keeps_for_each
              (untouched (fun q => ∃ u, In u (items mp)
                  ∧ In q (outputs (truthy model) save_prompts u))));
      [| exact Hloop |].
    - intros u Hu. apply untouched_translate_item.
      intros q Hq. exists u. by rewrite <- Hnm.
    - intros (u & Hu & Hq). by apply (Hp u). }
  split; [done |]. intros Hm ->. apply map_eq. intros p. apply H.
  intros u _. rewrite Hm. simpl. tauto.
Qed.

Lemma outputs_only_witness :
  fs (snd (prompt_translate example_toml example_json
             (reply_with example_response) example_mapping "seed.toml"
             (Some "openai") true (start example_store))) !! "a.f"
  = example_store !! "a.f".
Proof.
  destruct (outputs_only example_toml example_json
              (reply_with example_response) example_mapping "seed.toml"
              (Some "openai") true (start example_store)) as [H _].
  apply H. intros u Hu. vm_compute in Hu. destruct Hu as [<-|[]].
  vm_compute. intuition discriminate.
Defined.

(** ** A unit, step by step *)

Section Unit.

Variable json_dump : list message → string.
Variable chat : backend → nat → list message → option string.

(** The steps of a unit up to the backend, without prompt-saving. *)
Lemma process_item_built (nm : option backend) (u : item) (src : string)
    (m : message) st :
  last (chat_template st) = Some m →
  stat (fs st) (fsource u) = Some (File src) →
  process_item json_dump chat nm false u st
  = ((match nm with Some b => generate chat b u | None => ret tt end);;
     set_seed (content m))
      (State (fs st) (built_prompt (fs st) (chat_template st) m u src)
             (calls st) (events st ++ build_events (fs st) u) (stdout st)).
Proof.
  intros Hl Hsrc. unfold process_item, built_prompt, build_events.
  erewrite bind_returned by (by unfold get_seed; rewrite Hl).
  erewrite bind_returned by (by eapply inject_source_ok).
  erewrite bind_returned
    by (eapply inject_draft_ok; by apply last_set_last_content).
  simpl. rewrite set_last_content_twice, str_app_assoc, <- app_assoc.
  by erewrite bind_returned by done.
Qed.

(** The same with prompt-saving: the prompt file is written first. *)
Lemma process_item_built_saved (nm : option backend) (u : item)
    (src : string) (m : message) st :
  last (chat_template st) = Some m →
  stat (fs st) (fsource u) = Some (File src) →
  writable (fs st) (promptfile u) →
  process_item json_dump chat nm true u st
  = ((match nm with Some b => generate chat b u | None => ret tt end);;
     set_seed (content m))
      (State (<[promptfile u :=
                  File (json_dump
                          (built_prompt (fs st) (chat_template st) m u src))]>
                (<[promptfile u := File ""]> (fs st)))
             (built_prompt (fs st) (chat_template st) m u src)
             (calls st)
             (events st ++ build_events (fs st) u
              ++ [OpenW (promptfile u)])
             (stdout st
              ++ ["Generated prompt file for LLM consumption "
                  +:+ promptfile u])).
Proof.
  intros Hl Hsrc Hw. unfold process_item, built_prompt, build_events.
  erewrite bind_returned by (by unfold get_seed; rewrite Hl).
  erewrite bind_returned by (by eapply inject_source_ok).
  erewrite bind_returned
    by (eapply inject_draft_ok; by apply last_set_last_content).
  simpl. rewrite set_last_content_twice, str_app_assoc.
  erewrite bind_returned; [| by erewrite bind_returned
                                  by (by apply dump_prompt_ok)].
  simpl. by rewrite <- !app_assoc.
Qed.

Lemma translate_item_processes (nm : option backend) (sp : bool)
    (u : item) st :
  negb (isfile (fs st) (csource u)) || sp = true →
  translate_item json_dump chat nm sp u st
  = process_item json_dump chat nm sp u st.
Proof.
  intros H. unfold translate_item, mbind, M_bind, bind; simpl.
  by rewrite H.
Qed.

End Unit.

(** ** Failures in the middle of a unit *)

(** When the backend raises on a unit without prompt-saving, the error
    goes up with the store exactly as it was: no primary file is made,
    so the unit is not skipped by a later run. *)
Theorem backend_failure_keeps_store
    (json_dump : list message → string)
    (chat : backend → nat → list message → option string)
    (b : backend) (u : item) (src : string) (m : message) (st : state) :
  isfile (fs st) (csource u) = false →
  last (chat_template st) = Some m →
  stat (fs st) (fsource u) = Some (File src) →
  chat b (calls st) (built_prompt (fs st) (chat_template st) m u src)
  = None →
  ∃ st',
    translate_item json_dump chat (Some b) false u st
    = (Raised BackendError, st')
    ∧ fs st' = fs st
    ∧ calls st' = S (calls st)
    ∧ isfile (fs st') (csource u) = false.
Proof.
  intros Hcs Hl Hsrc Hchat.
  rewrite translate_item_processes by (by rewrite Hcs).
  rewrite (process_item_built json_dump chat _ u src m) by done.
  erewrite bind_raised;
    [| unfold generate; erewrite bind_raised; [done |];
       unfold call_chat; simpl; by rewrite Hchat].
  by eexists.
Qed.

Lemma backend_failure_keeps_store_witness :
  ∃ st',
    translate_item example_json failing_backend (Some OpenAIModel) false
      example_item example_state = (Raised BackendError, st')
    ∧ fs st' = fs example_state
    ∧ calls st' = 1
    ∧ isfile (fs st') "a.cpp" = false.
Proof.
  apply (backend_failure_keeps_store example_json failing_backend
           OpenAIModel example_item
           ("C note" +:+ Py.nl +:+ "x = 1" +:+ Py.nl)
           (Message "user" "SEED") example_state); reflexivity.
Defined.

(** When the secondary path is a directory, the unit raises after the
    primary file was opened: the primary file is left there, empty, and
    from then on the unit is skipped, with or without backend. *)
Theorem secondary_directory_leaves_empty_primary
    (json_dump : list message → string)
    (chat : backend → nat → list message → option string)
    (b : backend) (nm : option backend) (u : item) (src result : string)
    (m : message) (st : state) :
  isfile (fs st) (csource u) = false →
  last (chat_template st) = Some m →
  stat (fs st) (fsource u) = Some (File src) →
  chat b (calls st) (built_prompt (fs st) (chat_template st) m u src)
  = Some result →
  writable (fs st) (csource u) →
  stat (fs st) (finterface u) = Some Dir →
  ∃ st',
    translate_item json_dump chat (Some b) false u st
    = (Raised (IsADirectoryError (finterface u)), st')
    ∧ fs st' !! csource u = Some (File "")
    ∧ translate_item json_dump chat nm false u st' = (Returned tt, st').
Proof.
  intros Hcs Hl Hsrc Hchat Hw Hdir.
  assert (csource u ≠ finterface u) as Hne.
  { intros Heq. destruct Hw as [Hp Hw]. apply Hw. unfold stat in Hdir.
    rewrite Heq. by destruct (decide (finterface u = "")). }
  rewrite translate_item_processes by (by rewrite Hcs).
  rewrite (process_item_built json_dump chat _ u src m) by done.
  set (t := built_prompt (fs st) (chat_template st) m u src) in *.
  set (s := State (fs st) t (calls st)
                  (events st ++ build_events (fs st) u) (stdout st)).
  assert (generate chat b u s
          = (Raised (IsADirectoryError (finterface u)),
             State (<[csource u := File ""]> (fs st)) t (S (calls st))
                   ((events s ++ [Chat t]) ++ [OpenW (csource u)])
                   (stdout st))) as Hg.
  { unfold generate.
    erewrite bind_returned by (by unfold call_chat; simpl; rewrite Hchat).
    erewrite bind_returned by (by apply open_w_ok).
    erewrite bind_raised; [done |].
    unfold open_w, stat in *. simpl.
    destruct (decide (finterface u = "")); [done |].
    by rewrite lookup_insert_ne, Hdir. }
  erewrite bind_raised by exact Hg.
  eexists. split; [done |]. simpl. split; [apply lookup_insert_eq |].
  apply translate_item_skips. simpl. unfold isfile, stat.
  destruct Hw as [Hp _]. destruct (decide (csource u = "")); [done |].
  by rewrite lookup_insert_eq.
Qed.

(** A unit that is not skipped and whose source is not there raises
    [FileNotFoundError] on the source path, or [IsADirectoryError] when
    the path is a directory, and leaves the state exactly as it was;
    the units after it in the batch are not reached. *)
Theorem missing_source_raises
    (json_dump : list message → string)
    (chat : backend → nat → list message → option string)
    (nm : option backend) (sp : bool) (u : item) (us : list item)
    (m : message) (st : state) :
  negb (isfile (fs st) (csource u)) || sp = true →
  last (chat_template st) = Some m →
  (stat (fs st) (fsource u) = None →
   for_each (u :: us) (translate_item json_dump chat nm sp) st
   = (Raised (FileNotFoundError (fsource u)), st))
  ∧ (stat (fs st) (fsource u) = Some Dir →
     for_each (u :: us) (translate_item json_dump chat nm sp) st
     = (Raised (IsADirectoryError (fsource u)), st)).
Proof.
  intros Hg Hl.
  split; intros Hs; simpl; (erewrite bind_raised; [done |]);
    rewrite translate_item_processes by done; unfold process_item;
    (erewrite bind_returned by (by unfold get_seed; rewrite Hl));
    (erewrite bind_raised; [done |]);
    unfold inject_source, read_lines;
    (erewrite bind_raised; [done |]);
    (erewrite bind_raised; [done |]);
    unfold open_r; by rewrite Hs.
Qed.

(** With an empty template the batch raises [IndexError] at the first
    unit that has to be processed, before any file is opened; when every
    unit is skipped the empty template goes unnoticed and the batch
    returns. Either way the state is left as it was. *)
Theorem empty_template_batch
    (json_dump : list message → string)
    (chat : backend → nat → list message → option string)
    (nm : option backend) (sp : bool) (us : list item) (st : state) :
  chat_template st = [] →
  for_each us (translate_item json_dump chat nm sp) st
  = (if forallb (fun u => isfile (fs st) (csource u) && negb sp) us
     then Returned tt else Raised IndexError, st).
Proof.
  intros Ht. induction us as [|u us IH]; simpl; [done |].
  destruct (isfile (fs st) (csource u) && negb sp) eqn:Hg.
  - erewrite bind_returned; [exact IH |].
    apply andb_true_iff in Hg as [Hf ->%negb_true_iff].
    by apply translate_item_skips.
  - simpl. erewrite bind_raised; [done |].
    rewrite translate_item_processes.
    + unfold process_item. erewrite bind_raised; [done |].
      unfold get_seed. by rewrite Ht.
    + destruct (isfile (fs st) (csource u)), sp; done.
Qed.

Lemma secondary_directory_leaves_empty_primary_witness :
  ∃ st',
    translate_item example_json (reply_with example_response)
      (Some OpenAIModel) false example_item
      (State example_store_dir example_template 0 [] [])
    = (Raised (IsADirectoryError "a_fi.F90"), st')
    ∧ fs st' !! "a.cpp" = Some (File "")
    ∧ translate_item example_json (reply_with example_response)
        (Some OpenAIModel) false example_item st' = (Returned tt, st').
Proof.
  apply (secondary_directory_leaves_empty_primary example_json
           (reply_with example_response) OpenAIModel (Some OpenAIModel)
           example_item ("C note" +:+ Py.nl +:+ "x = 1" +:+ Py.nl)
           example_response (Message "user" "SEED")
           (State example_store_dir example_template 0 [] []));
    try reflexivity.
  split; [discriminate | by vm_compute].
Defined.

Lemma missing_source_raises_witness :
  for_each [example_item_missing; example_item]
    (translate_item example_json (reply_with example_response)
       (Some OpenAIModel) false) example_state
  = (Raised (FileNotFoundError "gone.f"), example_state).
Proof.
  destruct (missing_source_raises example_json
              (reply_with example_response) (Some OpenAIModel) false
              example_item_missing [example_item] (Message "user" "SEED")
              example_state) as [H _]; [reflexivity | reflexivity |].
  apply H. reflexivity.
Defined.

Lemma empty_template_batch_witness :
  for_each [example_item; example_item_missing]
    (translate_item example_json (reply_with example_response)
       (Some OpenAIModel) false) example_state_empty
  = (Raised IndexError, example_state_empty)
  ∧ for_each [example_item]
      (translate_item example_json (reply_with example_response)
         (Some OpenAIModel) false) example_state_empty
    = (Returned tt, example_state_empty).
Proof.
  split.
  - apply (empty_template_batch example_json (reply_with example_response)
             (Some OpenAIModel) false [example_item; example_item_missing]
             example_state_empty). reflexivity.
  - apply (empty_template_batch example_json (reply_with example_response)
             (Some OpenAIModel) false [example_item] example_state_empty).
    reflexivity.
Defined.


(** ** The units of a mapping *)

Lemma zip5_lookup (a b c d e : list string) (i : nat) (u : item) :
  zip5 a b c d e !! i = Some u
  ↔ a !! i = Some (fsource u) ∧ b !! i = Some (csource u)
    ∧ c !! i = Some (finterface u) ∧ d !! i = Some (cdraft u)
    ∧ e !! i = Some (promptfile u).
Proof.
  revert b c d e i.
  induction a as [|x a IH]; intros [|y b] [|z c] [|v d] [|w e] [|i];
    simpl; try (split; [done | by intros (? & ? & ? & ? & ?)]).
  - split.
    + by intros [= <-].
    + intros ([= H1] & [= H2] & [= H3] & [= H4] & [= H5]).
      destruct u; simpl in *. by subst.
  - apply IH.
Qed.

(** The units are the positions at which all five lists of the mapping
    have an entry, each unit made of the five entries at its position;
    so there are as many units as the shortest list has entries, and
    what the longer lists hold beyond is dropped without error. *)
Theorem items_positions (m : mapping) :
  (∀ i u,
     items m !! i = Some u
     ↔ mapping0 m !! i = Some (fsource u)
       ∧ mapping1 m !! i = Some (csource u)
       ∧ mapping2 m !! i = Some (finterface u)
       ∧ mapping3 m !! i = Some (cdraft u)
       ∧ mapping4 m !! i = Some (promptfile u))
  ∧ List.length (items m)
    = Nat.min (List.length (mapping0 m))
        (Nat.min (List.length (mapping1 m))
           (Nat.min (List.length (mapping2 m))
              (Nat.min (List.length (mapping3 m))
                 (List.length (mapping4 m))))).
Proof.
  split; [intros i u; apply zip5_lookup |].
  unfold items. destruct m as [a b c d e]. simpl.
  revert b c d e.
  induction a as [|x a IH]; intros [|y b] [|z c] [|v d] [|w e];
    simpl; try lia.
  rewrite IH. lia.
Qed.

(** ** A unit run twice *)

(** With a backend and without prompt-saving, running a unit and then a
    unit with the same primary path (the same unit again, or a later one
    of the mapping) does what running the first alone does: when the
    first returns the second is skipped, and when it raises the second
    is not reached. *)
Theorem same_primary_runs_once
    (json_dump : list message → string)
    (chat : backend → nat → list message → option string)
    (b : backend) (u u' : item) (st : state) :
  csource u' = csource u →
  (translate_item json_dump chat (Some b) false u;;
   translate_item json_dump chat (Some b) false u') st
  = translate_item json_dump chat (Some b) false u st.
Proof.
  intros Heq.
  destruct (translate_item json_dump chat (Some b) false u st)
    as [[[]|e] s] eqn:E.
  - erewrite bind_returned by done.
    apply translate_item_skips. rewrite Heq.
    by eapply translate_item_returned_isfile.
  - by erewrite bind_raised.
Qed.

Lemma same_primary_runs_once_witness :
  (translate_item example_json (reply_with example_response)
     (Some OpenAIModel) false example_item;;
   translate_item example_json (reply_with example_response)
     (Some OpenAIModel) false example_item) example_state
  = translate_item example_json (reply_with example_response)
      (Some OpenAIModel) false example_item example_state.
Proof.
  apply (same_primary_runs_once example_json (reply_with example_response)
           OpenAIModel example_item example_item example_state).
  reflexivity.
Defined.

(** ** The prompt saved and the prompt sent *)

(** With prompt-saving and a backend, the conversation serialised into
    the prompt file of a unit is the conversation the backend is called
    with: the template with the source block and the draft block
    appended to its last message; the reply is split into the primary
    and the secondary file, and the template is back as it was. *)
Theorem saved_prompt_is_sent_prompt
    (json_dump : list message → string)
    (chat : backend → nat → list message → option string)
    (b : backend) (u : item) (src result : string) (m : message)
    (st : state) :
  let conv := built_prompt (fs st) (chat_template st) m u src in
  last (chat_template st) = Some m →
  stat (fs st) (fsource u) = Some (File src) →
  writable (fs st) (promptfile u) →
  writable (fs st) (csource u) →
  writable (fs st) (finterface u) →
  csource u ≠ finterface u →
  promptfile u ≠ csource u →
  promptfile u ≠ finterface u →
  chat b (calls st) conv = Some result →
  ∃ st',
    translate_item json_dump chat (Some b) true u st = (Returned tt, st')
    ∧ fs st' !! promptfile u = Some (File (json_dump conv))
    ∧ fs st' !! csource u = Some (File (cdest_text result))
    ∧ fs st' !! finterface u = Some (File (fdest_text result))
    ∧ events st'
      = events st ++ build_events (fs st) u
        ++ [OpenW (promptfile u); Chat conv; OpenW (csource u);
            OpenW (finterface u)]
    ∧ chat_template st' = chat_template st.
Proof.
  intros conv Hl Hsrc Hwp Hwc Hwf Hne Hpc Hpf Hchat.
  rewrite translate_item_processes by apply orb_true_r.
  rewrite (process_item_built_saved json_dump chat _ u src m) by done.
  fold conv.
  set (s := State _ conv _ _ _).
  destruct (generate_writes chat b u result s)
    as (s5 & Hg & Hc & Hf & Hother & Ht & He);
    [exact Hchat | subst s; simpl; by do 2 apply writable_insert
     | subst s; simpl; by do 2 apply writable_insert | done |].
  erewrite bind_returned by exact Hg.
  assert (is_Some (last conv)) as [m2 Hl2]
    by (eexists; by apply last_set_last_content).
  unfold set_seed, set_template. rewrite Ht. simpl. rewrite Hl2.
  eexists. split; [done |]. simpl.
  split; [rewrite Hother by done; simpl; apply lookup_insert_eq |].
  split; [done |]. split; [done |]. split.
  - rewrite He. subst s. simpl. rewrite <- !app_assoc.
    by destruct (isfile (fs st) (cdraft u)).
  - unfold conv, built_prompt. rewrite set_last_content_twice.
    by apply set_last_content_self.
Qed.

Lemma saved_prompt_is_sent_prompt_witness :
  ∃ st',
    translate_item example_json (reply_with example_response)
      (Some OpenAIModel) true example_item example_state
    = (Returned tt, st')
    ∧ fs st' !! "a.json"
      = Some (File (example_json
                      (built_prompt example_store example_template
                         (Message "user" "SEED") example_item
                         ("C note" +:+ Py.nl +:+ "x = 1" +:+ Py.nl))))
    ∧ fs st' !! "a.cpp" = Some (File "IMPL").
Proof.
  destruct (saved_prompt_is_sent_prompt example_json
              (reply_with example_response) OpenAIModel example_item
              ("C note" +:+ Py.nl +:+ "x = 1" +:+ Py.nl) example_response
              (Message "user" "SEED") example_state)
    as (st' & H1 & H2 & H3 & _).
  - reflexivity.
  - reflexivity.
  - split; [discriminate | by vm_compute].
  - split; [discriminate | by vm_compute].
  - split; [discriminate | by vm_compute].
  - discriminate.
  - discriminate.
  - discriminate.
  - reflexivity.
  - exists st'. split; [exact H1 |]. split; [exact H2 | exact H3].
Defined.


(** ** The calls of the backend *)

Lemma called_bind (j k : nat) {A B} (m : M A) (f : A → M B) :
  keeps (called j) m → (∀ a, keeps (called k) (f a)) →
  keeps (called (j + k)) (m ≫= f).
Proof.
  intros Hm Hf st r st'. unfold mbind, M_bind, bind.
  destruct (m st) as [[a|e] s1] eqn:E.
  - intros H. apply Hm in E as [? ?]. apply Hf in H as [? ?].
    unfold called. lia.
  - intros [= <- <-]. apply Hm in E as [? ?]. unfold called. lia.
Qed.

Lemma called_same {A} (m : M A) :
  (∀ st r st', m st = (r, st') → calls st' = calls st) →
  keeps (called 0) m.
Proof. intros H st r st' Hm. apply H in Hm. unfold called. lia. Qed.

Ltac calls_unchanged :=
  apply called_same; intros st r st';
  unfold open_w, close_w, read_lines, open_r, get_seed, set_seed,
    append_seed, set_template, set_fs, emit, print, get_state, ret,
    mbind, M_bind, bind;
  repeat case_match; simplify_eq/=; by intros [= <- <-].

Section Calls.

Variable json_dump : list message → string.
Variable chat : backend → nat → list message → option string.

Lemma called_ret {A} (a : A) : keeps (called 0) (ret a).
Proof. calls_unchanged. Qed.

Lemma called_get_state : keeps (called 0) get_state.
Proof. calls_unchanged. Qed.

Lemma called_print (s : string) : keeps (called 0) (print s).
Proof. calls_unchanged. Qed.

Lemma called_get_seed : keeps (called 0) get_seed.
Proof. calls_unchanged. Qed.

Lemma called_set_seed (v : string) : keeps (called 0) (set_seed v).
Proof. calls_unchanged. Qed.

Lemma called_read_lines (p : string) : keeps (called 0) (read_lines p).
Proof. calls_unchanged. Qed.

Lemma called_open_w (p : string) : keeps (called 0) (open_w p).
Proof. calls_unchanged. Qed.

Lemma called_close_w (p text : string) : keeps (called 0) (close_w p text).
Proof. calls_unchanged. Qed.

Lemma called_append_seed (v : string) : keeps (called 0) (append_seed v).
Proof.
  apply (called_bind 0 0); [apply called_get_seed |].
  intros a. apply called_set_seed.
Qed.

Lemma called_call_chat (b : backend) : keeps (called 1) (call_chat chat b).
Proof.
  intros st r st'. unfold call_chat, called.
  destruct (chat b (calls st) (chat_template st)); intros [= <- <-];
    simpl; lia.
Qed.

Lemma called_dump_prompt (p : string) :
  keeps (called 0) (dump_prompt json_dump p).
Proof.
  apply (called_bind 0 0); [apply called_open_w |]. intros _.
  apply (called_bind 0 0); [apply called_get_state |]. intros st.
  apply called_close_w.
Qed.

Lemma called_generate (b : backend) (u : item) :
  keeps (called 1) (generate chat b u).
Proof.
  apply (called_bind 1 0); [apply called_call_chat |]. intros result.
  apply (called_bind 0 0); [apply called_open_w |]. intros _.
  apply (called_bind 0 0); [apply called_open_w |]. intros _.
  apply (called_bind 0 0); [apply called_close_w |]. intros _.
  apply called_close_w.
Qed.

Lemma called_inject_source (u : item) :
  keeps (called 0) (inject_source u).
Proof.
  apply (called_bind 0 0); [apply called_read_lines |]. intros lines.
  destruct (source_code lines); [apply called_ret | apply called_append_seed].
Qed.

Lemma called_inject_draft (u : item) : keeps (called 0) (inject_draft u).
Proof.
  apply (called_bind 0 0); [apply called_get_state |]. intros st.
  destruct (isfile (fs st) (cdraft u)); [| apply called_ret].
  apply (called_bind 0 0); [apply called_read_lines |]. intros lines.
  destruct lines; [apply called_ret | apply called_append_seed].
Qed.

Lemma called_translate_item (nm : option backend) (sp : bool) (u : item) :
  keeps (called (match nm with Some _ => 1 | None => 0 end))
        (translate_item json_dump chat nm sp u).
Proof.
  assert (∀ k, keeps (called 0) (ret tt) → keeps (called k) (ret tt : M ()))
    as Hw by (intros k H st r st' [= <- <-]; unfold called; lia).
  pose proof (called_ret tt) as Hret.
  set (k := match nm with Some _ => 1 | None => 0 end).
  apply (called_bind 0 k); [apply called_get_state |]. intros st.
  destruct (negb (isfile (fs st) (csource u)) || sp); [| by apply Hw].
  apply (called_bind 0 k); [apply called_get_seed |]. intros cached.
  apply (called_bind 0 k); [apply called_inject_source |]. intros _.
  apply (called_bind 0 k); [apply called_inject_draft |]. intros _.
  apply (called_bind 0 k).
  { destruct sp; [| done].
    apply (called_bind 0 0); [apply called_dump_prompt |]. intros _.
    apply called_print. }
  intros _. replace k with (k + 0) by lia.
  apply (called_bind k 0); [| intros _; apply called_set_seed].
  subst k. destruct nm; [apply called_generate | done].
Qed.

Lemma called_for_each (nm : option backend) (sp : bool)
    (us : list item) :
  keeps (called (match nm with Some _ => List.length us | None => 0 end))
        (for_each us (translate_item json_dump chat nm sp)).
Proof.
  induction us as [|u us IH]; simpl.
  - intros st r st' [= <- <-]. unfold called. destruct nm; simpl; lia.
  - pose proof (called_translate_item nm sp u) as Hu.
    destruct nm; [apply (called_bind 1 (List.length us)) |
                  apply (called_bind 0 0)]; try done; by intros _.
Qed.

End Calls.

(** A run of [prompt_translate] calls the backend at most once for each
    unit of the mapping, whatever happens, and not at all when the
    selector chooses no backend. *)
Theorem backend_calls_bounded
    (toml_chat : string → option (list message))
    (json_dump : list message → string)
    (chat : backend → nat → list message → option string)
    (mp : mapping) (seed_prompt : string) (model : option string)
    (save_prompts : bool) (st : state) :
  let st' :=
    snd (prompt_translate toml_chat json_dump chat mp seed_prompt model
           save_prompts st) in
  calls st ≤ calls st'
  ∧ calls st' ≤ calls st + List.length (items mp)
  ∧ (truthy model = false → calls st' = calls st).
Proof.
  simpl. destruct (prompt_translate _ _ _ _ _ _ _ _) as [r st'] eqn:Hrun.
  simpl.
  apply prompt_translate_inv in Hrun
    as [(_ & -> & _)|(nm & s1 & Hnm & _ & <- & Hloop)].
  { split; [lia |]. split; [lia | done]. }
  apply called_for_each in Hloop as [H1 H2].
  destruct nm; simpl in *.
  - split; [done |]. split; [done |]. intros Hm. by rewrite Hm in Hnm.
  - split; [done |]. split; lia.
Qed.


(** ** An inspection from end to end *)

Section Inspect.

Variable json_dump : list message → string.
Variable chat : backend → nat → list message → option string.

Lemma inspect_prompt_ok (files : list string) (query_prompt : string) st :
  Forall (fun p => isfile (fs st) p = true) files →
  inspect_prompt files query_prompt st
  = (Returned tt,
     State (fs st) (inspect_conversation (fs st) files query_prompt)
           (calls st) (events st ++ map OpenR files) (stdout st)).
Proof.
  intros Hall. unfold inspect_prompt, inspect_conversation.
  erewrite bind_returned by done.
  erewrite bind_returned by (by eapply append_seed_ok).
  erewrite bind_returned by (by apply inspect_files_ok).
  erewrite append_seed_ok by done. simpl. by rewrite str_app_assoc.
Qed.

Lemma select_model_selected (banner m : string) st :
  m ≠ "" →
  path_exists (fs st) m = true ∨ Py.lower m = "openai" →
  select_model banner (Some m) st
  = (Returned (Some (selected (fs st) m)),
     State (fs st) (chat_template st) (calls st) (events st)
           (stdout st ++ [banner])).
Proof.
  intros Hm Hor. unfold select_model, selected, mbind, M_bind, bind.
  destruct (decide (m = "")); [done |]. simpl.
  destruct (path_exists (fs st) m); [done |].
  destruct Hor as [|Hl]; [done |].
  by destruct (decide (Py.lower m = "openai")).
Qed.

(** The files read up to one that is not there. *)
Lemma inspect_files_missing (l1 l2 : list string) (p acc : string) st :
  chat_template st = [Message "user" acc] →
  Forall (fun q => isfile (fs st) q = true) l1 →
  stat (fs st) p = None →
  ∃ t,
    for_each (l1 ++ p :: l2) inspect_file st
    = (Raised (FileNotFoundError p),
       State (fs st) t (calls st) (events st ++ map OpenR l1) (stdout st)).
Proof.
  intros Ht Hall Hp.
  erewrite for_each_app_returned by (by apply inspect_files_ok).
  simpl. eexists. erewrite bind_raised; [done |].
  unfold inspect_file, read_lines.
  erewrite bind_raised; [done |]. erewrite bind_raised; [done |].
  unfold open_r. simpl. by rewrite Hp.
Qed.

End Inspect.

(** An inspection with a backend and without prompt-saving: the files
    are read in order, the backend is called once with the one user
    message built from them, and its reply is printed as it is, with no
    tag taken out of it; nothing is written. *)
Theorem inspection_reply_printed
    (json_dump : list message → string)
    (chat : backend → nat → list message → option string)
    (filelist : list string) (query_prompt m result : string)
    (st : state) :
  m ≠ "" →
  path_exists (fs st) m = true ∨ Py.lower m = "openai" →
  Forall (fun p => isfile (fs st) p = true) filelist →
  chat (selected (fs st) m) (calls st)
    (inspect_conversation (fs st) filelist query_prompt) = Some result →
  ∃ st',
    prompt_inspect json_dump chat filelist query_prompt (Some m) false st
    = (Returned tt, st')
    ∧ fs st' = fs st
    ∧ stdout st' = stdout st ++ ["Performing neural inspection"; result]
    ∧ events st'
      = events st ++ map OpenR filelist
        ++ [Chat (inspect_conversation (fs st) filelist query_prompt)]
    ∧ calls st' = S (calls st).
Proof.
  intros Hm Hor Hall Hchat. unfold prompt_inspect.
  erewrite bind_returned by (by apply select_model_selected).
  erewrite bind_returned by done.
  erewrite bind_returned by (by apply inspect_prompt_ok).
  erewrite bind_returned by done.
  erewrite bind_returned
    by (by unfold call_chat; simpl; rewrite Hchat).
  eexists. split; [done |]. simpl.
  by rewrite <- !app_assoc.
Qed.

Lemma inspection_reply_printed_witness :
  ∃ st',
    prompt_inspect example_json (reply_with "Two: a and b.")
      ["a.f"; "b.f"] "List all subroutines" (Some "OpenAI") false
      (start inspect_store)
    = (Returned tt, st')
    ∧ fs st' = inspect_store
    ∧ stdout st' = ["Performing neural inspection"; "Two: a and b."].
Proof.
  destruct (inspection_reply_printed example_json
              (reply_with "Two: a and b.") ["a.f"; "b.f"]
              "List all subroutines" "OpenAI" "Two: a and b."
              (start inspect_store))
    as (st' & H1 & H2 & H3 & _).
  - discriminate.
  - right. reflexivity.
  - repeat constructor.
  - reflexivity.
  - by exists st'.
Defined.

(** An inspection with prompt-saving and no backend: the conversation is
    serialised into the file "scribe.json", which is created or
    overwritten; no other path changes and no backend is called. *)
Theorem inspection_prompt_saved
    (json_dump : list message → string)
    (chat : backend → nat → list message → option string)
    (filelist : list string) (query_prompt : string) (st : state) :
  Forall (fun p => isfile (fs st) p = true) filelist →
  writable (fs st) "scribe.json" →
  ∃ st',
    prompt_inspect json_dump chat filelist query_prompt None true st
    = (Returned tt, st')
    ∧ fs st' !! "scribe.json"
      = Some (File (json_dump
                      (inspect_conversation (fs st) filelist query_prompt)))
    ∧ (∀ p, p ≠ "scribe.json" → fs st' !! p = fs st !! p)
    ∧ calls st' = calls st
    ∧ events st' = events st ++ map OpenR filelist ++ [OpenW "scribe.json"].
Proof.
  intros Hall Hw. unfold prompt_inspect.
  erewrite bind_returned by done.
  erewrite bind_returned by done.
  erewrite bind_returned by (by apply inspect_prompt_ok).
  erewrite bind_returned by (by apply dump_prompt_ok).
  eexists. split; [done |]. simpl.
  split; [apply lookup_insert_eq |].
  split; [intros p Hp; by rewrite !lookup_insert_ne |].
  split; [done | by rewrite <- app_assoc].
Qed.

Lemma inspection_prompt_saved_witness :
  ∃ st',
    prompt_inspect example_json failing_backend ["a.f"; "b.f"]
      "List all subroutines" None true (start inspect_store)
    = (Returned tt, st')
    ∧ fs st' !! "scribe.json"
      = Some (File (example_json
                      (inspect_conversation inspect_store ["a.f"; "b.f"]
                         "List all subroutines"))).
Proof.
  destruct (inspection_prompt_saved example_json failing_backend
              ["a.f"; "b.f"] "List all subroutines" (start inspect_store))
    as (st' & H1 & H2 & _).
  - repeat constructor.
  - split; [discriminate | by vm_compute].
  - by exists st'.
Defined.

(** An inspection whose list names a file that is not there raises
    [FileNotFoundError] on that path once the files before it were
    read: before the backend is called and before anything is written,
    prompt-saving or not. *)
Theorem inspection_missing_file
    (json_dump : list message → string)
    (chat : backend → nat → list message → option string)
    (l1 l2 : list string) (p query_prompt m : string) (sp : bool)
    (st : state) :
  m ≠ "" →
  path_exists (fs st) m = true ∨ Py.lower m = "openai" →
  Forall (fun q => isfile (fs st) q = true) l1 →
  stat (fs st) p = None →
  ∃ st',
    prompt_inspect json_dump chat (l1 ++ p :: l2) query_prompt (Some m)
      sp st
    = (Raised (FileNotFoundError p), st')
    ∧ fs st' = fs st
    ∧ calls st' = calls st
    ∧ events st' = events st ++ map OpenR l1.
Proof.
  intros Hm Hor Hall Hp. unfold prompt_inspect.
  erewrite bind_returned by (by apply select_model_selected).
  set (s1 := State _ _ _ _ _).
  assert (∃ s2, (if sp then print "Saving prompts to scribe.json"
                 else ret tt) s1 = (Returned tt, s2)
                ∧ fs s2 = fs st ∧ calls s2 = calls st
                ∧ events s2 = events st)
    as (s2 & Hpr & Hf2 & Hc2 & He2) by (destruct sp; by eexists).
  erewrite bind_returned by exact Hpr.
  destruct (inspect_files_missing l1 l2 p preamble
              (State (fs s2) [Message "user" preamble] (calls s2)
                     (events s2) (stdout s2)))
    as [t Hloop]; [done | by simpl; rewrite Hf2 | by simpl; rewrite Hf2 |].
  assert (inspect_prompt (l1 ++ p :: l2) query_prompt s2
          = (Raised (FileNotFoundError p),
             State (fs s2) t (calls s2) (events s2 ++ map OpenR l1)
                   (stdout s2))) as Hip.
  { unfold inspect_prompt.
    erewrite bind_returned by done.
    erewrite bind_returned by (by eapply append_seed_ok).
    erewrite bind_raised; [done |]. exact Hloop. }
  erewrite bind_raised by exact Hip.
  eexists. split; [done |]. simpl. by rewrite Hf2, Hc2, He2.
Qed.

Lemma inspection_missing_file_witness :
  ∃ st',
    prompt_inspect example_json (reply_with "Two: a and b.")
      (["a.f"] ++ "gone.f" :: ["b.f"]) "List all subroutines"
      (Some "openai") true (start inspect_store)
    = (Raised (FileNotFoundError "gone.f"), st')
    ∧ fs st' = inspect_store
    ∧ calls st' = 0
    ∧ events st' = [OpenR "a.f"].
Proof.
  apply (inspection_missing_file example_json (reply_with "Two: a and b.")
           ["a.f"] ["b.f"] "gone.f" "List all subroutines" "openai" true
           (start inspect_store)).
  - discriminate.
  - right. reflexivity.
  - repeat constructor.
  - reflexivity.
Defined.

(** A selector of [prompt_inspect] that is not empty, names no existing
    path and is not "openai" up to case raises the error naming it
    before any file is read and before the conversation is built. *)
Theorem inspection_unknown_model
    (json_dump : list message → string)
    (chat : backend → nat → list message → option string)
    (filelist : list string) (query_prompt m : string) (sp : bool)
    (st : state) :
  m ≠ "" →
  path_exists (fs st) m = false →
  Py.lower m ≠ "openai" →
  ∃ st',
    prompt_inspect json_dump chat filelist query_prompt (Some m) sp st
    = (Raised (ValueError (m +:+ " not available")), st')
    ∧ fs st' = fs st
    ∧ events st' = events st
    ∧ calls st' = calls st
    ∧ chat_template st' = chat_template st.
Proof.
  intros Hm Hp Hl. unfold prompt_inspect, select_model.
  destruct (decide (m = "")); [done |].
  unfold mbind, M_bind, bind; simpl. rewrite Hp.
  destruct (decide (Py.lower m = "openai")); [done |]. by eexists.
Qed.

Lemma inspection_unknown_model_witness :
  ∃ st',
    prompt_inspect example_json (reply_with "Two: a and b.")
      ["a.f"; "b.f"] "List all subroutines" (Some "llama") false
      (start inspect_store)
    = (Raised (ValueError "llama not available"), st')
    ∧ fs st' = inspect_store
    ∧ events st' = []
    ∧ calls st' = 0
    ∧ chat_template st' = [].
Proof.
  apply (inspection_unknown_model example_json
           (reply_with "Two: a and b.") ["a.f"; "b.f"]
           "List all subroutines" "llama" false (start inspect_store)).
  - discriminate.
  - reflexivity.
  - discriminate.
Defined.


(** ** More on whole runs *)

Lemma backend_calls_bounded_witness :
  calls (snd (prompt_translate example_toml example_json
                (reply_with example_response) example_mapping "seed.toml"
                None true (start example_store))) = 0.
Proof.
  destruct (backend_calls_bounded example_toml example_json
              (reply_with example_response) example_mapping "seed.toml"
              None true (start example_store)) as (_ & _ & H).
  apply H. reflexivity.
Defined.

(** A run of [prompt_translate] removes nothing, whatever happens: a
    path that names a file before the run names a file after it, and a
    path that exists before exists after. *)
Theorem run_removes_nothing
    (toml_chat : string → option (list message))
    (json_dump : list message → string)
    (chat : backend → nat → list message → option string)
    (mp : mapping) (seed_prompt : string) (model : option string)
    (save_prompts : bool) (st : state) (p : string) :
  let st' :=
    snd (prompt_translate toml_chat json_dump chat mp seed_prompt model
           save_prompts st) in
  (isfile (fs st) p = true → isfile (fs st') p = true)
  ∧ (path_exists (fs st) p = true → path_exists (fs st') p = true).
Proof.
  simpl. destruct (prompt_translate _ _ _ _ _ _ _ _) as [r st'] eqn:Hrun.
  simpl.
  apply prompt_translate_inv in Hrun
    as [(-> & _)|(nm & s1 & _ & <- & _ & Hloop)]; [done |].
  assert (step s1 st') as [_ Hf He _].
  { eapply preserves_for_each; [| done].
    intros x. apply preserves_translate_item. }
  split; [apply Hf | apply He].
Qed.

Lemma run_removes_nothing_witness :
  isfile
    (fs (snd (prompt_translate example_toml example_json
                (reply_with example_response) example_mapping "seed.toml"
                (Some "openai") true (start example_store)))) "a.f"
  = true.
Proof.
  destruct (run_removes_nothing example_toml example_json
              (reply_with example_response) example_mapping "seed.toml"
              (Some "openai") true (start example_store) "a.f") as [H _].
  apply H. reflexivity.
Defined.

(** Prompt-saving without backend: the unit is processed whether or not
    its primary file is there, its prompt file holds the conversation
    built for it, the backend is not called, no other path changes (the
    primary file is neither made nor touched), and the template is back
    as it was. *)
Theorem offline_prompt_generation
    (json_dump : list message → string)
    (chat : backend → nat → list message → option string)
    (u : item) (src : string) (m : message) (st : state) :
  last (chat_template st) = Some m →
  stat (fs st) (fsource u) = Some (File src) →
  writable (fs st) (promptfile u) →
  ∃ st',
    translate_item json_dump chat None true u st = (Returned tt, st')
    ∧ fs st' !! promptfile u
      = Some (File (json_dump
                      (built_prompt (fs st) (chat_template st) m u src)))
    ∧ (∀ p, p ≠ promptfile u → fs st' !! p = fs st !! p)
    ∧ calls st' = calls st
    ∧ chat_template st' = chat_template st
    ∧ events st'
      = events st ++ build_events (fs st) u ++ [OpenW (promptfile u)].
Proof.
  intros Hl Hsrc Hw.
  rewrite translate_item_processes by apply orb_true_r.
  rewrite (process_item_built_saved json_dump chat _ u src m) by done.
  erewrite bind_returned by done.
  assert (is_Some (last (built_prompt (fs st) (chat_template st) m u src)))
    as [m2 Hl2] by (eexists; by apply last_set_last_content).
  unfold set_seed, set_template. simpl. rewrite Hl2.
  eexists. split; [done |]. simpl.
  split; [apply lookup_insert_eq |].
  split; [intros p Hp; by rewrite !lookup_insert_ne |].
  split; [done |]. split; [| done].
  unfold built_prompt. rewrite set_last_content_twice.
  by apply set_last_content_self.
Qed.

Lemma offline_prompt_generation_witness :
  ∃ st',
    translate_item example_json failing_backend None true example_item
      example_state_done = (Returned tt, st')
    ∧ fs st' !! "a.json"
      = Some (File (example_json
                      (built_prompt example_store_done example_template
                         (Message "user" "SEED") example_item
                         ("C note" +:+ Py.nl +:+ "x = 1" +:+ Py.nl))))
    ∧ fs st' !! "a.cpp" = Some (File "int old;").
Proof.
  destruct (offline_prompt_generation example_json failing_backend
              example_item ("C note" +:+ Py.nl +:+ "x = 1" +:+ Py.nl)
              (Message "user" "SEED") example_state_done)
    as (st' & H1 & H2 & H3 & _).
  - reflexivity.
  - reflexivity.
  - split; [discriminate | by vm_compute].
  - exists st'. split; [exact H1 |]. split; [exact H2 |].
    rewrite H3 by discriminate. reflexivity.
Defined.
